(** * Secure Exam Desktop gateway: session orchestration and clipboard relay

    A shallow embedding of [gateway/index.js] and [gateway/db.js]:

    - [Relay]: the two message callbacks installed by [server.on('upgrade')]
      and the life cycle of the socket pair they serve;
    - [Gateway]: the rows of [db.js], the in-memory [sessions] map, and the
      request handlers [/access/:token], [/exam/:assignmentId/:token],
      [/api/exam-sessions/:id/end], [/api/exam-sessions/check-expired] and the
      [setInterval] sweeper, written in a small monad of effects whose
      asynchronous nodes are the calls to the container runtime;
    - [Engine]: one container runtime, with the answers the Docker Engine
      gives through dockerode, used to run interleavings of two requests;
    - [Admin]: the session middlewares, login, signup and the management of
      professors.

    [Gateway] also holds the legacy session API, the enrollment container
    API and the routing of the WebSocket upgrade to the desktop of a
    session.

    Console output is left out of the model.  Calls to the database and the
    file system are total: an exception thrown by SQLite or by [fs] is not
    modelled. *)

From stdpp Require Import gmap strings list pretty.
From Stdlib Require Import ZArith Lia.
From Stdlib.Strings Require Import Ascii Byte.

Open Scope Z_scope.

(* ===================================================================== *)
(** ** The protocol filtering relay                                       *)
(* ===================================================================== *)

Module Relay.

(** [WebSocket.readyState]. *)
Inductive ReadyState := CONNECTING | OPEN | CLOSING | CLOSED.

Definition ReadyState_eqb (a b : ReadyState) : bool :=
  match a, b with
  | CONNECTING, CONNECTING | OPEN, OPEN | CLOSING, CLOSING | CLOSED, CLOSED => true
  | _, _ => false
  end.

(** The [data] argument of a ['message'] callback.  ws 8 hands every frame
    over as a Node [Buffer]; [NotBuffer] stands for any other value carrying
    the same bytes (a string, an [ArrayBuffer], an array of fragments), for
    which [Buffer.isBuffer] answers false. *)
Inductive WsData :=
| Buffer (bytes : list byte)
| NotBuffer (bytes : list byte).

Definition isBuffer (data : WsData) : bool :=
  match data with Buffer _ => true | NotBuffer _ => false end.

Definition payload (data : WsData) : list byte :=
  match data with Buffer bs | NotBuffer bs => bs end.

(** [data.length] *)
Definition dataLength (data : WsData) : Z := Z.of_nat (length (payload data)).

(** [data[0]] of a Buffer: the first octet as a number, [None] for
    [undefined]. *)
Definition index0 (data : WsData) : option Z :=
  match payload data with
  | b :: _ => Some (Z.of_N (Byte.to_N b))
  | [] => None
  end.

(** [messageType === n] *)
Definition strictEq (messageType : option Z) (n : Z) : bool :=
  match messageType with Some m => m =? n | None => false end.

(** RFB message types of the two clipboard transfers. *)
Definition ClientCutText : Z := 6.
Definition ServerCutText : Z := 3.

(** [clientWs.on('message', (data) => ...)]: the value handed to
    [targetWs.send], if any. *)
Definition clientOnMessage (targetReadyState : ReadyState) (data : WsData)
  : option WsData :=
  if (if isBuffer data && (0 <? dataLength data)
      then strictEq (index0 data) ClientCutText
      else false)
  then None
  else if ReadyState_eqb targetReadyState OPEN then Some data else None.

(** [targetWs.on('message', (data) => ...)]: the value handed to
    [clientWs.send], if any. *)
Definition targetOnMessage (clientReadyState : ReadyState) (data : WsData)
  : option WsData :=
  if (if isBuffer data && (0 <? dataLength data)
      then strictEq (index0 data) ServerCutText
      else false)
  then None
  else if ReadyState_eqb clientReadyState OPEN then Some data else None.

(** The socket pair of one upgraded connection, with what each side has been
    given to send so far, oldest first. *)
Record Pair := {
  clientWs : ReadyState;
  targetWs : ReadyState;
  toTarget : list WsData;
  toClient : list WsData
}.

(** What the event loop delivers to the callbacks of the pair. *)
Inductive Event :=
| ClientMessage (data : WsData)
| TargetMessage (data : WsData)
| ClientClose
| TargetClose.

(** [ws.close()] as seen on [readyState]. *)
Definition close (s : ReadyState) : ReadyState :=
  match s with CLOSED => CLOSED | _ => CLOSING end.

Definition deliver (sent : option WsData) (queue : list WsData) : list WsData :=
  match sent with Some d => queue ++ [d] | None => queue end.

Definition step (p : Pair) (ev : Event) : Pair :=
  match ev with
  | ClientMessage data =>
      {| clientWs := clientWs p; targetWs := targetWs p;
         toTarget := deliver (clientOnMessage (targetWs p) data) (toTarget p);
         toClient := toClient p |}
  | TargetMessage data =>
      {| clientWs := clientWs p; targetWs := targetWs p;
         toTarget := toTarget p;
         toClient := deliver (targetOnMessage (clientWs p) data) (toClient p) |}
  | ClientClose =>
      {| clientWs := CLOSED; targetWs := close (targetWs p);
         toTarget := toTarget p; toClient := toClient p |}
  | TargetClose =>
      {| clientWs := close (clientWs p); targetWs := CLOSED;
         toTarget := toTarget p; toClient := toClient p |}
  end.

Definition relay (p : Pair) (evs : list Event) : Pair := fold_left step evs p.

(** The pair when [handleUpgrade] calls back: [targetWs] has fired ['open']
    and the browser's upgrade has completed. *)
Definition relaying : Pair :=
  {| clientWs := OPEN; targetWs := OPEN; toTarget := []; toClient := [] |}.

Definition isMessage (ev : Event) : bool :=
  match ev with ClientMessage _ | TargetMessage _ => true | _ => false end.

Definition fromClient (evs : list Event) : list WsData :=
  omap (fun ev => match ev with ClientMessage d => Some d | _ => None end) evs.

Definition fromTarget (evs : list Event) : list WsData :=
  omap (fun ev => match ev with TargetMessage d => Some d | _ => None end) evs.

(** The messages a callback lets through: all but the nonempty Buffers
    whose first octet is [marker]. *)
Definition passes (marker : Z) (data : WsData) : bool :=
  negb (isBuffer data && (0 <? dataLength data) && strictEq (index0 data) marker).

End Relay.

(* ===================================================================== *)
(** ** The gateway: records, effects and request handlers                 *)
(* ===================================================================== *)

Module Gateway.

(** *** Rows of [db.js] *)

(** A DATETIME column that is not NULL: the stored text, and the time value
    (milliseconds) [new Date(text)] gives it, [None] for Invalid Date.  The
    API stores NULL for every falsy value ([start_time || null]), so a stored
    text is truthy. *)
Record DateText := { raw : string; timeValue : option Z }.

(** [exam_sessions.status] *)
Inductive Status := pending | active | completed.

Definition Status_eqb (a b : Status) : bool :=
  match a, b with
  | pending, pending | active, active | completed, completed => true
  | _, _ => false
  end.

(** A row of [getEnrollmentByToken]: [e.*] with the columns joined from
    [courses] and [students]. *)
Record Enrollment := {
  e_id : Z;
  e_student_id : Z;
  e_course_id : Z;
  e_container_id : option string;
  e_container_status : string;
  e_access_token : string;
  e_course_name : string;
  e_environment_image : option string;
  e_first_name : string;
  e_last_name : string;
  e_email : string
}.

(** A row of [assignments], with the columns [getExamAssignment] joins from
    [courses]. *)
Record Assignment := {
  a_id : Z;
  a_course_id : Z;
  a_title : string;
  a_folder_name : string;
  a_instructions_md : option string;
  a_is_exam : bool;
  a_start_time : option DateText;
  a_end_time : option DateText;
  a_due_date : option DateText;
  a_course_name : string;
  a_environment_image : option string
}.

(** A row of [exam_sessions]. *)
Record ExamSession := {
  es_id : Z;
  es_assignment_id : Z;
  es_student_id : Z;
  es_container_id : option string;
  es_work_volume_path : option string;
  es_status : Status;
  es_started_at : option Z;
  es_ended_at : option Z
}.

(** A row of [getActiveExamSessions]: [es.*] and [a.end_time]. *)
Record ActiveExamSession := {
  row : ExamSession;
  end_time : option DateText
}.

(** The tables the orchestration reads and writes.  [assignments] is held in
    the order [getAssignmentsByCourse] returns it (most recent first);
    [exam_sessions] in rowid order, with the counter AUTOINCREMENT keeps in
    [sqlite_sequence].  Foreign keys are enforced, so the joins with
    [courses] and [students] drop no row. *)
Record Db := {
  enrollments : list Enrollment;
  assignments : list Assignment;
  exam_sessions : list ExamSession;
  exam_sessions_seq : Z
}.

Definition getEnrollmentByToken (d : Db) (token : string) : option Enrollment :=
  List.find (fun e => String.eqb (e_access_token e) token) (enrollments d).

Definition getAssignmentsByCourse (d : Db) (courseId : Z) : list Assignment :=
  List.filter (fun a => a_course_id a =? courseId) (assignments d).

Definition getExamAssignment (d : Db) (id : Z) : option Assignment :=
  List.find (fun a => (a_id a =? id) && a_is_exam a) (assignments d).

Definition getExamSession (d : Db) (id : Z) : option ExamSession :=
  List.find (fun s => es_id s =? id) (exam_sessions d).

Definition getExamSessionByStudentAndAssignment (d : Db) (studentId assignmentId : Z)
  : option ExamSession :=
  List.find (fun s => (es_student_id s =? studentId) && (es_assignment_id s =? assignmentId))
            (exam_sessions d).

Definition getActiveExamSessions (d : Db) : list ActiveExamSession :=
  omap (fun s =>
          if Status_eqb (es_status s) active
          then match List.find (fun a => a_id a =? es_assignment_id s) (assignments d) with
               | Some a => Some {| row := s; end_time := a_end_time a |}
               | None => None
               end
          else None)
       (exam_sessions d).

(** [lastInsertRowid] of the next INSERT: one more than every rowid the
    table holds or has held. *)
Definition nextRowid (d : Db) : Z :=
  1 + fold_right Z.max (exam_sessions_seq d) (map es_id (exam_sessions d)).

(** [createExamSession.run(assignmentId, studentId, workVolumePath)], with
    [datetime('now')] read as [now]; answers the new rowid. *)
Definition createExamSession (d : Db) (now : Z) (assignmentId studentId : Z)
           (workVolumePath : string) : Db * Z :=
  let id := nextRowid d in
  ({| enrollments := enrollments d;
      assignments := assignments d;
      exam_sessions :=
        exam_sessions d ++
        [ {| es_id := id; es_assignment_id := assignmentId; es_student_id := studentId;
             es_container_id := None; es_work_volume_path := Some workVolumePath;
             es_status := active; es_started_at := Some now; es_ended_at := None |} ];
      exam_sessions_seq := id |}, id).

Definition setExamSessions (d : Db) (l : list ExamSession) : Db :=
  {| enrollments := enrollments d; assignments := assignments d;
     exam_sessions := l; exam_sessions_seq := exam_sessions_seq d |}.

Definition updateExamSessionContainer (d : Db) (id : Z) (containerId : string) : Db :=
  setExamSessions d
    (map (fun s =>
            if es_id s =? id
            then {| es_id := es_id s; es_assignment_id := es_assignment_id s;
                    es_student_id := es_student_id s;
                    es_container_id := Some containerId;
                    es_work_volume_path := es_work_volume_path s;
                    es_status := es_status s; es_started_at := es_started_at s;
                    es_ended_at := es_ended_at s |}
            else s)
         (exam_sessions d)).

(** [endExamSession.run(id)], with [datetime('now')] read as [now]. *)
Definition endExamSession (d : Db) (now : Z) (id : Z) : Db :=
  setExamSessions d
    (map (fun s =>
            if es_id s =? id
            then {| es_id := es_id s; es_assignment_id := es_assignment_id s;
                    es_student_id := es_student_id s;
                    es_container_id := es_container_id s;
                    es_work_volume_path := es_work_volume_path s;
                    es_status := completed; es_started_at := es_started_at s;
                    es_ended_at := Some now |}
            else s)
         (exam_sessions d)).

Definition updateEnrollmentContainer (d : Db) (id : Z) (containerId : option string)
           (status : string) : Db :=
  {| enrollments :=
       map (fun e =>
              if e_id e =? id
              then {| e_id := e_id e; e_student_id := e_student_id e;
                      e_course_id := e_course_id e;
                      e_container_id := containerId; e_container_status := status;
                      e_access_token := e_access_token e;
                      e_course_name := e_course_name e;
                      e_environment_image := e_environment_image e;
                      e_first_name := e_first_name e; e_last_name := e_last_name e;
                      e_email := e_email e |}
              else e)
           (enrollments d);
     assignments := assignments d;
     exam_sessions := exam_sessions d;
     exam_sessions_seq := exam_sessions_seq d |}.

(** [getEnrollment.get(id)]: the row of [enrollments] alone; its callers read
    none of the joined columns. *)
Definition getEnrollment (d : Db) (id : Z) : option Enrollment :=
  List.find (fun e => e_id e =? id) (enrollments d).

(** [deleteEnrollment.run(id)] *)
Definition deleteEnrollment (d : Db) (id : Z) : Db :=
  {| enrollments := List.filter (fun e => negb (e_id e =? id)) (enrollments d);
     assignments := assignments d;
     exam_sessions := exam_sessions d;
     exam_sessions_seq := exam_sessions_seq d |}.

(** [deleteAssignment.run(id)] and [deleteStudent.run(id)] as they reach
    [exam_sessions] through ON DELETE CASCADE. *)
Definition deleteAssignment (d : Db) (id : Z) : Db :=
  {| enrollments := enrollments d;
     assignments := List.filter (fun a => negb (a_id a =? id)) (assignments d);
     exam_sessions := List.filter (fun s => negb (es_assignment_id s =? id)) (exam_sessions d);
     exam_sessions_seq := exam_sessions_seq d |}.

Definition deleteStudent (d : Db) (id : Z) : Db :=
  {| enrollments := List.filter (fun e => negb (e_student_id e =? id)) (enrollments d);
     assignments := assignments d;
     exam_sessions := List.filter (fun s => negb (es_student_id s =? id)) (exam_sessions d);
     exam_sessions_seq := exam_sessions_seq d |}.

(** *** The container runtime as dockerode presents it *)

(** The options object of [docker.createContainer]. *)
Record CreateOptions := {
  Image : string;
  name : string;
  Env : list string;
  NetworkMode : string;
  CapAdd : list string;
  Dns : list string;
  Binds : list string
}.

(** A call on the runtime.  [ref] is what [docker.getContainer] was given: a
    container name or a container id. *)
Inductive DockerCall :=
| Inspect (ref : string)
| CreateContainer (opts : CreateOptions)
| Start (ref : string)
| Stop (ref : string)
| Remove (ref : string).

(** The promise of a call: fulfilled, or rejected with the HTTP status of
    the Engine's answer. *)
Inductive Result (A : Type) :=
| Ok (value : A)
| Rejected (statusCode : Z).
Arguments Ok {A} value.
Arguments Rejected {A} statusCode.

(** [info.State.Running] of an inspect; the [id] of a created container;
    nothing for the others. *)
Definition fulfilled (c : DockerCall) : Type :=
  match c with
  | Inspect _ => bool
  | CreateContainer _ => string
  | Start _ | Stop _ | Remove _ => unit
  end.

Definition mutating (c : DockerCall) : bool :=
  match c with Inspect _ => false | _ => true end.

(** A runtime: some state, and the answer to each call. *)
Class Runtime := {
  RtState : Type;
  rtExec : forall c : DockerCall, RtState -> RtState * Result (fulfilled c)
}.

(** *** The process: configuration, [sessions], effects *)

(** Environment of the process: [DATA_DIR], [HOST_DATA_DIR],
    [DOCKER_NETWORK], and the host's [Date.prototype.toLocaleString] on the
    time value of a date ([None]: Invalid Date). *)
Class Config := {
  DATA_DIR : string;
  HOST_DATA_DIR : string;
  DOCKER_NETWORK : string;
  toLocaleString : option Z -> string
}.

(** A value of the [sessions] map. *)
Record Session := {
  containerId : string;
  enrollmentId : option Z;
  examSessionId : option Z;
  imageId : option string;
  imageName : option string;
  isExam : bool;
  created : Z
}.

(** What a handler does to the world, one constructor per primitive. *)
Inductive Eff :=
| Now
| GetEnrollmentByToken (token : string)
| GetAssignmentsByCourse (courseId : Z)
| GetExamAssignment (id : Z)
| GetExamSession (id : Z)
| GetExamSessionByStudentAndAssignment (studentId assignmentId : Z)
| GetActiveExamSessions
| CreateExamSession (assignmentId studentId : Z) (workVolumePath : string)
| UpdateExamSessionContainer (id : Z) (container : string)
| EndExamSession (id : Z)
| UpdateEnrollmentContainer (id : Z) (container : option string) (status : string)
| SessionsSet (key : string) (value : Session)
| SessionsDelete (key : string)
| EnsureDir (dirPath : string)
| WriteFileSync (file : string) (content : string)
| Docker (c : DockerCall)
| GetEnrollment (id : Z)
| DeleteEnrollment (id : Z)
| SessionsGet (key : string).

Definition reply (e : Eff) : Type :=
  match e with
  | Now => Z
  | GetEnrollmentByToken _ => option Enrollment
  | GetAssignmentsByCourse _ => list Assignment
  | GetExamAssignment _ => option Assignment
  | GetExamSession _ => option ExamSession
  | GetExamSessionByStudentAndAssignment _ _ => option ExamSession
  | GetActiveExamSessions => list ActiveExamSession
  | CreateExamSession _ _ _ => Z
  | Docker c => Result (fulfilled c)
  | GetEnrollment _ => option Enrollment
  | SessionsGet _ => option Session
  | _ => unit
  end.

(** The calls a handler awaits. *)
Definition isAsync (e : Eff) : bool :=
  match e with Docker _ => true | _ => false end.

(** A handler: a tree of effects ending in a result. *)
Inductive Task (R : Type) : Type :=
| Ret (r : R)
| Do (e : Eff) (k : reply e -> Task R).
Arguments Ret {R} r.
Arguments Do {R} e k.

Fixpoint bind {R S : Type} (t : Task R) (f : R -> Task S) : Task S :=
  match t with
  | Ret r => f r
  | Do e k => Do e (fun a => bind (k a) f)
  end.

Declare Scope task_scope.
Delimit Scope task_scope with task.
Bind Scope task_scope with Task.
Notation "'let*' x := e 'in' k" := (Do e (fun x => k))
  (at level 10, x pattern, e at level 100, k at level 200) : task_scope.
Notation "e ;; k" := (Do e (fun _ => k))
  (at level 100, k at level 200, right associativity) : task_scope.
Notation "'call*' x := t 'in' k" := (bind t (fun x => k))
  (at level 10, x pattern, t at level 100, k at level 200) : task_scope.
Open Scope task_scope.

(** *** The world and the meaning of effects *)

Section World.
Context {RT : Runtime}.

Record World := {
  db : Db;
  sessions : gmap string Session;
  files : gmap string string;
  dirs : gset string;
  clock : Z;
  runtime : RtState;
  trace : list Eff
}.

Definition setDb (w : World) (d : Db) : World :=
  {| db := d; sessions := sessions w; files := files w; dirs := dirs w;
     clock := clock w; runtime := runtime w; trace := trace w |}.

Definition setSessions (w : World) (m : gmap string Session) : World :=
  {| db := db w; sessions := m; files := files w; dirs := dirs w;
     clock := clock w; runtime := runtime w; trace := trace w |}.

Definition setFs (w : World) (f : gmap string string) (ds : gset string) : World :=
  {| db := db w; sessions := sessions w; files := f; dirs := ds;
     clock := clock w; runtime := runtime w; trace := trace w |}.

Definition setRuntime (w : World) (r : RtState) : World :=
  {| db := db w; sessions := sessions w; files := files w; dirs := dirs w;
     clock := clock w; runtime := r; trace := trace w |}.

Definition setClock (w : World) (t : Z) : World :=
  {| db := db w; sessions := sessions w; files := files w; dirs := dirs w;
     clock := t; runtime := runtime w; trace := trace w |}.

Definition record (w : World) (e : Eff) : World :=
  {| db := db w; sessions := sessions w; files := files w; dirs := dirs w;
     clock := clock w; runtime := runtime w; trace := trace w ++ [e] |}.

(** One effect on the world, before it is recorded. *)
Definition perform (e : Eff) (w : World) : World * reply e :=
  match e return World * reply e with
  | Now => (w, clock w)
  | GetEnrollmentByToken token => (w, getEnrollmentByToken (db w) token)
  | GetAssignmentsByCourse courseId => (w, getAssignmentsByCourse (db w) courseId)
  | GetExamAssignment id => (w, getExamAssignment (db w) id)
  | GetExamSession id => (w, getExamSession (db w) id)
  | GetExamSessionByStudentAndAssignment s a =>
      (w, getExamSessionByStudentAndAssignment (db w) s a)
  | GetActiveExamSessions => (w, getActiveExamSessions (db w))
  | CreateExamSession a s p =>
      let '(d, id) := createExamSession (db w) (clock w) a s p in (setDb w d, id)
  | UpdateExamSessionContainer id c => (setDb w (updateExamSessionContainer (db w) id c), tt)
  | EndExamSession id => (setDb w (endExamSession (db w) (clock w) id), tt)
  | UpdateEnrollmentContainer id c st => (setDb w (updateEnrollmentContainer (db w) id c st), tt)
  | SessionsSet key value => (setSessions w (<[key := value]> (sessions w)), tt)
  | SessionsDelete key => (setSessions w (delete key (sessions w)), tt)
  | EnsureDir p => (setFs w (files w) ({[p]} ∪ dirs w), tt)
  | WriteFileSync f c => (setFs w (<[f := c]> (files w)) (dirs w), tt)
  | Docker c => let '(r, a) := rtExec c (runtime w) in (setRuntime w r, a)
  | GetEnrollment id => (w, getEnrollment (db w) id)
  | DeleteEnrollment id => (setDb w (deleteEnrollment (db w) id), tt)
  | SessionsGet key => (w, sessions w !! key)
  end.

Definition handle (e : Eff) (w : World) : World * reply e :=
  perform e (record w e).

(** A handler run to its end with nothing else scheduled in between. *)
Fixpoint run {R : Type} (t : Task R) (w : World) : World * R :=
  match t with
  | Ret r => (w, r)
  | Do e k => let '(w', a) := handle e w in run (k a) w'
  end.

(** The synchronous stretch of a handler: up to its next awaited call. *)
Fixpoint runSync {R : Type} (t : Task R) (w : World) : World * Task R :=
  match t with
  | Ret r => (w, Ret r)
  | Do e k =>
      if isAsync e then (w, Do e k)
      else let '(w', a) := handle e w in runSync (k a) w'
  end.

(** One turn of the event loop for a handler: the awaited call is answered
    and the handler runs on to its next await. *)
Definition resume {R : Type} (t : Task R) (w : World) : World * Task R :=
  match t with
  | Ret r => (w, Ret r)
  | Do e k => let '(w', a) := handle e w in runSync (k a) w'
  end.

(** Two handlers in flight; the schedule names which one the loop resumes
    next ([false]: the first, [true]: the second). *)
Fixpoint interleave {R : Type} (schedule : list bool) (t1 t2 : Task R) (w : World)
  : World * (Task R * Task R) :=
  match schedule with
  | [] => (w, (t1, t2))
  | false :: rest => let '(w', t1') := resume t1 w in interleave rest t1' t2 w'
  | true :: rest => let '(w', t2') := resume t2 w in interleave rest t1 t2' w'
  end.

Definition finished {R : Type} (t : Task R) : option R :=
  match t with Ret r => Some r | Do _ _ => None end.

End World.

(** *** Handlers of [index.js] *)

(** Bodies sent with [res.json].  [JRuntimeError] is [{ error: err.message }]
    for the rejection of a runtime call, told by its status;
    [JStatus s c] is [{ status: s, containerId: c }], [JSuccessStatus s] is
    [{ success: true, status: s }], [JSession i u] is
    [{ id: i, connectUrl: u }]. *)
Inductive Json :=
| JError (error : string)
| JSuccess
| JTerminated (terminated checked : nat)
| JRuntimeError (statusCode : Z)
| JStatus (status : string) (containerId : option string)
| JSuccessStatus (status : string)
| JSession (id connectUrl : string).

(** What a handler answers.  The values of a redirect's query are the ones
    the handler passes through [encodeURIComponent]. *)
Inductive Response :=
| Send (status : Z) (body : string)
| SendJson (status : Z) (body : Json)
| Redirect (location : string) (query : list (string * string)).

Section Handlers.
Context {CFG : Config}.

Definition nl : string := String "010"%char EmptyString.

(** [path.join] on segments that need no normalising. *)
Definition path_join (segments : list string) : string := String.concat "/" segments.

(** [a || b] on a nullable text. *)
Definition orElse (a : option string) (b : string) : string :=
  match a with
  | Some s => if String.eqb s "" then b else s
  | None => b
  end.

(** [d && new Date(d) > now] and [d && new Date(d) < now]; a comparison with
    Invalid Date is false. *)
Definition dateAfter (d : option DateText) (now : Z) : bool :=
  match d with
  | Some t => match timeValue t with Some ms => now <? ms | None => false end
  | None => false
  end.

Definition dateBefore (d : option DateText) (now : Z) : bool :=
  match d with
  | Some t => match timeValue t with Some ms => ms <? now | None => false end
  | None => false
  end.

Definition dateValue (d : option DateText) : option Z :=
  match d with Some t => timeValue t | None => None end.

Definition getContainerName (enrollment : Enrollment) : string :=
  "lms-" +:+ pretty (e_course_id enrollment) +:+ "-" +:+ pretty (e_student_id enrollment).

(** The name of an exam container; [assignmentId] is the route parameter,
    read as the decimal numeral of the id it selects. *)
Definition examContainerName (assignmentId studentId : Z) : string :=
  "exam-" +:+ pretty assignmentId +:+ "-" +:+ pretty studentId.

Definition readme (assignment : Assignment) : string :=
  let content := "# " +:+ a_title assignment +:+ nl +:+ nl in
  let content :=
    match a_due_date assignment with
    | Some d => content +:+ "**Due:** " +:+ toLocaleString (timeValue d) +:+ nl +:+ nl
    | None => content
    end in
  match a_instructions_md assignment with
  | Some md => if String.eqb md "" then content +:+ "*No instructions provided.*"
               else content +:+ md
  | None => content +:+ "*No instructions provided.*"
  end.

Fixpoint syncEach {R : Type} (assignmentsDir : string) (l : list Assignment) (k : Task R)
  : Task R :=
  match l with
  | [] => k
  | assignment :: rest =>
      let folderPath := path_join [assignmentsDir; a_folder_name assignment] in
      EnsureDir folderPath ;;
      WriteFileSync (path_join [folderPath; "README.md"]) (readme assignment) ;;
      syncEach assignmentsDir rest k
  end.

Definition syncAssignmentsToWorkspace (courseId : Z) (workspacePath : string) : Task nat :=
  let* assignments := GetAssignmentsByCourse courseId in
  let assignmentsDir := path_join [workspacePath; "assignments"] in
  EnsureDir assignmentsDir ;;
  syncEach assignmentsDir assignments (Ret (length assignments)).

(** **** [app.get('/access/:token')] *)

Definition failedSession : Response :=
  Send 500 "Failed to start your session. Please try again or contact your instructor.".

Definition workspaceOf (root : string) (enrollment : Enrollment) : string :=
  path_join [root; "courses"; pretty (e_course_id enrollment); pretty (e_student_id enrollment)].

Definition accessOptions (enrollment : Enrollment) (containerName : string) : CreateOptions :=
  {| Image := orElse (e_environment_image enrollment) "exam-desktop-vscode-python";
     name := containerName;
     Env := [ "SESSION_NAME=" +:+ containerName;
              "STUDENT_NAME=" +:+ e_first_name enrollment +:+ " " +:+ e_last_name enrollment;
              "STUDENT_EMAIL=" +:+ e_email enrollment;
              "COURSE_NAME=" +:+ e_course_name enrollment ];
     NetworkMode := DOCKER_NETWORK;
     CapAdd := ["NET_ADMIN"];
     Dns := ["127.0.0.1"];
     Binds := [ workspaceOf HOST_DATA_DIR enrollment +:+ ":/home/student/workspace" ] |}.

(** [sessions.set(containerName, ...)] and the redirect. *)
Definition accessRegister (enrollment : Enrollment) (containerName container : string)
  : Task Response :=
  let* now := Now in
  SessionsSet containerName
    {| containerId := container; enrollmentId := Some (e_id enrollment);
       examSessionId := None; imageId := e_environment_image enrollment;
       imageName := Some (e_course_name enrollment); isExam := false; created := now |} ;;
  Ret (Redirect "/student.html"
         [("session", containerName); ("course", e_course_name enrollment)]).

(** [if (needsStart) { ... }] and what follows.  [container] is
    [container.id]: the name given to [docker.getContainer], or the id of
    the container just created. *)
Definition accessStart (enrollment : Enrollment) (containerName container : string)
           (needsStart : bool) : Task Response :=
  if needsStart then
    let workspacePath := workspaceOf DATA_DIR enrollment in
    EnsureDir workspacePath ;;
    call* assignmentCount := syncAssignmentsToWorkspace (e_course_id enrollment) workspacePath in
    let* started := Docker (Start container) in
    match started with
    | Rejected _ => Ret failedSession
    | Ok _ =>
        UpdateEnrollmentContainer (e_id enrollment) (Some container) "running" ;;
        accessRegister enrollment containerName container
    end
  else accessRegister enrollment containerName container.

Definition access (token : string) : Task Response :=
  let* enrollment := GetEnrollmentByToken token in
  match enrollment with
  | None => Ret (Send 404 "Invalid or expired access link")
  | Some enrollment =>
      let containerName := getContainerName enrollment in
      let* info := Docker (Inspect containerName) in
      match info with
      | Ok running => accessStart enrollment containerName containerName (negb running)
      | Rejected _ =>
          EnsureDir (workspaceOf DATA_DIR enrollment) ;;
          let* created := Docker (CreateContainer (accessOptions enrollment containerName)) in
          match created with
          | Rejected _ => Ret failedSession
          | Ok id =>
              UpdateEnrollmentContainer (e_id enrollment) (Some id) "created" ;;
              accessStart enrollment containerName id true
          end
      end
  end.

(** **** [app.get('/exam/:assignmentId/:token')] *)

Definition failedExam : Response :=
  Send 500 "Failed to start your exam. Please try again or contact your instructor.".

Definition examWorkPathOf (root : string) (assignmentId studentId : Z) : string :=
  path_join [root; "exams"; pretty assignmentId; pretty studentId].

Definition instructions (exam : Assignment) : string :=
  let text := "# " +:+ a_title exam +:+ nl +:+ nl in
  let text :=
    match a_end_time exam with
    | Some d => text +:+ "**Exam ends:** " +:+ toLocaleString (timeValue d) +:+ nl +:+ nl
    | None => text
    end in
  match a_instructions_md exam with
  | Some md => text +:+ md
  | None => text
  end.

Definition rawOrEmpty (d : option DateText) : string :=
  match d with Some t => raw t | None => "" end.

Definition examOptions (enrollment : Enrollment) (exam : Assignment) (assignmentId : Z)
           (containerName : string) : CreateOptions :=
  {| Image := orElse (a_environment_image exam) "exam-desktop-vscode-python";
     name := containerName;
     Env := [ "SESSION_NAME=" +:+ containerName;
              "STUDENT_NAME=" +:+ e_first_name enrollment +:+ " " +:+ e_last_name enrollment;
              "STUDENT_EMAIL=" +:+ e_email enrollment;
              "COURSE_NAME=" +:+ a_course_name exam;
              "EXAM_MODE=true";
              "EXAM_TITLE=" +:+ a_title exam;
              "EXAM_END_TIME=" +:+ rawOrEmpty (a_end_time exam) ];
     NetworkMode := DOCKER_NETWORK;
     CapAdd := ["NET_ADMIN"];
     Dns := ["127.0.0.1"];
     Binds := [ examWorkPathOf HOST_DATA_DIR assignmentId (e_student_id enrollment)
                  +:+ ":/home/student/workspace" ] |}.

(** [sessions.set(containerName, ...)] and the redirect.  Reading
    [examSession.id] of [undefined] throws into the handler's [catch]. *)
Definition examRegister (exam : Assignment) (examSession : option ExamSession)
           (containerName container : string) : Task Response :=
  match examSession with
  | None => Ret failedExam
  | Some examSession =>
      let* now := Now in
      SessionsSet containerName
        {| containerId := container; enrollmentId := None;
           examSessionId := Some (es_id examSession);
           imageId := a_environment_image exam; imageName := Some (a_title exam);
           isExam := true; created := now |} ;;
      Ret (Redirect "/exam.html"
             [("session", containerName); ("exam", a_title exam);
              ("end", rawOrEmpty (a_end_time exam))])
  end.

Definition examStart (exam : Assignment) (examSession : option ExamSession)
           (containerName container : string) (needsStart : bool) : Task Response :=
  if needsStart then
    let* started := Docker (Start container) in
    match started with
    | Rejected _ => Ret failedExam
    | Ok _ => examRegister exam examSession containerName container
    end
  else examRegister exam examSession containerName container.

(** From [// Check for existing container] on. *)
Definition examContainer (enrollment : Enrollment) (exam : Assignment) (assignmentId : Z)
           (examSession : option ExamSession) (containerName examWorkPath : string)
  : Task Response :=
  let* info := Docker (Inspect containerName) in
  match info with
  | Ok running => examStart exam examSession containerName containerName (negb running)
  | Rejected _ =>
      let assignmentDir := path_join [examWorkPath; a_folder_name exam] in
      EnsureDir assignmentDir ;;
      WriteFileSync (path_join [assignmentDir; "README.md"]) (instructions exam) ;;
      let* created :=
        Docker (CreateContainer (examOptions enrollment exam assignmentId containerName)) in
      match created with
      | Rejected _ => Ret failedExam
      | Ok id =>
          match examSession with
          | None => Ret failedExam
          | Some s =>
              UpdateExamSessionContainer (es_id s) id ;;
              examStart exam examSession containerName id true
          end
      end
  end.

Definition isCompleted (examSession : option ExamSession) : bool :=
  match examSession with
  | Some s => Status_eqb (es_status s) completed
  | None => false
  end.

Definition examAccess (assignmentId : Z) (token : string) : Task Response :=
  let* enrollment := GetEnrollmentByToken token in
  match enrollment with
  | None => Ret (Send 404 "Invalid or expired access link")
  | Some enrollment =>
  let* exam := GetExamAssignment assignmentId in
  match exam with
  | None => Ret (Send 404 "Exam not found or is not an exam assignment")
  | Some exam =>
  if negb (a_course_id exam =? e_course_id enrollment)
  then Ret (Send 403 "You are not enrolled in this course")
  else
  let* now := Now in
  if dateAfter (a_start_time exam) now
  then Ret (Send 403 ("Exam has not started yet. Start time: "
                        +:+ toLocaleString (dateValue (a_start_time exam))))
  else
  if dateBefore (a_end_time exam) now
  then Ret (Send 403 "Exam has ended. The submission window is closed.")
  else
  let* examSession :=
    GetExamSessionByStudentAndAssignment (e_student_id enrollment) assignmentId in
  let containerName := examContainerName assignmentId (e_student_id enrollment) in
  if isCompleted examSession
  then Ret (Send 403 "You have already completed this exam.")
  else
  let examWorkPath := examWorkPathOf DATA_DIR assignmentId (e_student_id enrollment) in
  EnsureDir examWorkPath ;;
  match examSession with
  | None =>
      let* sessionId :=
        CreateExamSession assignmentId (e_student_id enrollment) examWorkPath in
      let* examSession := GetExamSession sessionId in
      examContainer enrollment exam assignmentId examSession containerName examWorkPath
  | Some _ =>
      examContainer enrollment exam assignmentId examSession containerName examWorkPath
  end
  end
  end.


(** **** The legacy session API *)

(** An entry of [images]. *)
Record ImageConfig := {
  image_id : string;
  image_name : string;
  image : string
}.

Definition images : list ImageConfig :=
  [ {| image_id := "vscode-python"; image_name := "VS Code + Python";
       image := "exam-desktop-vscode-python" |} ].

(** [app.post('/api/sessions')] with the body's [imageId] and [sessionName]
    ([None]: absent). *)
Definition createSession (imageId sessionName : option string) : Task Response :=
  match List.find (fun i => match imageId with
                            | Some x => String.eqb (image_id i) x
                            | None => false
                            end) images with
  | None => Ret (SendJson 400 (JError "Invalid image ID"))
  | Some imageConfig =>
      let create (sessionId : string) : Task Response :=
        let* created :=
          Docker (CreateContainer
                    {| Image := image imageConfig;
                       name := "exam-" +:+ sessionId;
                       Env := ["SESSION_NAME=" +:+ sessionId];
                       NetworkMode := DOCKER_NETWORK;
                       CapAdd := ["NET_ADMIN"];
                       Dns := ["127.0.0.1"];
                       Binds := [] |}) in
        match created with
        | Rejected code => Ret (SendJson 500 (JRuntimeError code))
        | Ok container =>
            let* started := Docker (Start container) in
            match started with
            | Rejected code => Ret (SendJson 500 (JRuntimeError code))
            | Ok _ =>
                let* now := Now in
                SessionsSet sessionId
                  {| containerId := container; enrollmentId := None; examSessionId := None;
                     imageId := Some (image_id imageConfig);
                     imageName := Some (image_name imageConfig);
                     isExam := false; created := now |} ;;
                Ret (SendJson 200
                       (JSession sessionId ("/vnc/" +:+ sessionId +:+ "/vnc.html")))
            end
        end in
      match sessionName with
      | Some n => if String.eqb n ""
                  then let* now := Now in create ("session-" +:+ pretty now)
                  else create n
      | None => let* now := Now in create ("session-" +:+ pretty now)
      end
  end.

(** [app.delete('/api/sessions/:id')]: each of stop and remove sits in a
    [try] of its own. *)
Definition deleteSession (id : string) : Task Response :=
  let* session := SessionsGet id in
  match session with
  | None => Ret (SendJson 404 (JError "Session not found"))
  | Some session =>
      Docker (Stop (containerId session)) ;;
      Docker (Remove (containerId session)) ;;
      SessionsDelete id ;;
      Ret (SendJson 200 JSuccess)
  end.

(** **** The enrollment container API *)

(** [app.get('/api/enrollments/:id/status')] *)
Definition enrollmentStatus (id : Z) : Task Response :=
  let* enrollment := GetEnrollment id in
  match enrollment with
  | None => Ret (SendJson 404 (JError "Enrollment not found"))
  | Some enrollment =>
      match e_container_id enrollment with
      | None => Ret (SendJson 200 (JStatus "not_created" None))
      | Some c =>
          if String.eqb c "" then Ret (SendJson 200 (JStatus "not_created" None))
          else
            let* info := Docker (Inspect c) in
            match info with
            | Ok running =>
                Ret (SendJson 200 (JStatus (if running then "running" else "stopped") (Some c)))
            | Rejected _ => Ret (SendJson 200 (JStatus "not_found" None))
            end
      end
  end.

(** [app.post('/api/enrollments/:id/start')] *)
Definition enrollmentStart (id : Z) : Task Response :=
  let* enrollment := GetEnrollment id in
  match enrollment with
  | None => Ret (SendJson 404 (JError "Enrollment not found"))
  | Some enrollment =>
      let containerName := getContainerName enrollment in
      let* info := Docker (Inspect containerName) in
      match info with
      | Rejected _ =>
          Ret (SendJson 400
                 (JError "Container not created yet. Student must access via their link first."))
      | Ok _ =>
          let workspacePath := workspaceOf DATA_DIR enrollment in
          EnsureDir workspacePath ;;
          call* assignmentCount :=
            syncAssignmentsToWorkspace (e_course_id enrollment) workspacePath in
          let* started := Docker (Start containerName) in
          match started with
          | Rejected code => Ret (SendJson 500 (JRuntimeError code))
          | Ok _ =>
              UpdateEnrollmentContainer (e_id enrollment) (Some containerName) "running" ;;
              let* now := Now in
              SessionsSet containerName
                {| containerId := containerName; enrollmentId := Some (e_id enrollment);
                   examSessionId := None; imageId := None; imageName := None;
                   isExam := false; created := now |} ;;
              Ret (SendJson 200 (JSuccessStatus "running"))
          end
      end
  end.

(** [app.post('/api/enrollments/:id/stop')] *)
Definition enrollmentStop (id : Z) : Task Response :=
  let* enrollment := GetEnrollment id in
  match enrollment with
  | None => Ret (SendJson 404 (JError "Enrollment not found"))
  | Some enrollment =>
      let containerName := getContainerName enrollment in
      let* stopped := Docker (Stop containerName) in
      match stopped with
      | Ok _ =>
          UpdateEnrollmentContainer (e_id enrollment) (e_container_id enrollment) "stopped" ;;
          SessionsDelete containerName ;;
          Ret (SendJson 200 (JSuccessStatus "stopped"))
      | Rejected _ => Ret (SendJson 200 (JSuccessStatus "stopped"))
      end
  end.

End Handlers.

(** **** Routing to the desktop of a session *)

(** [s.startsWith(prefix)] *)
Definition startsWith (s prefix : string) : bool := String.prefix prefix s.

(** The host the proxies address for a session key:
    [sessionId.startsWith('lms-') ? sessionId : ('exam-' + sessionId)]. *)
Definition proxyContainerName (sessionId : string) : string :=
  if startsWith sessionId "lms-" then sessionId else "exam-" +:+ sessionId.

(** The longest run of characters other than [/] at the head of [s], and
    what follows it. *)
Fixpoint splitSlash (s : string) : string * string :=
  match s with
  | EmptyString => (EmptyString, EmptyString)
  | String c rest =>
      if Ascii.eqb c "/"%char then (EmptyString, s)
      else let '(a, b) := splitSlash rest in (String c a, b)
  end.

Fixpoint stripPrefix (prefix s : string) : option string :=
  match prefix, s with
  | EmptyString, _ => Some s
  | String a p, String b r => if Ascii.eqb a b then stripPrefix p r else None
  | String _ _, EmptyString => None
  end.

(** [req.url.match(/^\/vnc\/([^/]+)\/websockify/)]: the captured group. *)
Definition matchWebsockify (url : string) : option string :=
  match stripPrefix "/vnc/" url with
  | None => None
  | Some rest =>
      let '(sessionId, tail) := splitSlash rest in
      match sessionId with
      | EmptyString => None
      | String _ _ => if startsWith tail "/websockify" then Some sessionId else None
      end
  end.

(** What [server.on('upgrade')] does with the socket before any frame. *)
Inductive Upgrade :=
| Destroy
| Connect (targetUrl : string).

Definition onUpgrade (registry : gmap string Session) (url : string) : Upgrade :=
  match matchWebsockify url with
  | None => Destroy
  | Some sessionId =>
      match registry !! sessionId with
      | None => Destroy
      | Some _ => Connect ("ws://" +:+ proxyContainerName sessionId +:+ ":6080/websockify")
      end
  end.

(** Whether [s], read as a session id, holds no [/]: the ids the pattern of
    the upgrade can capture. *)
Fixpoint noSlash (s : string) : bool :=
  match s with
  | EmptyString => true
  | String c rest => negb (Ascii.eqb c "/"%char) && noSlash rest
  end.

(** **** Ending exam sessions *)

(** [if (session.container_id) { try { stop; remove } catch { } }], the block
    the three termination paths share, followed by [k]. *)
Definition stopAndRemove {R : Type} (container_id : option string) (k : Task R) : Task R :=
  match container_id with
  | None => k
  | Some c =>
      if String.eqb c "" then k
      else
        let* stopped := Docker (Stop c) in
        match stopped with
        | Rejected _ => k
        | Ok _ => Docker (Remove c) ;; k
        end
  end.

(** [app.delete('/api/courses/:courseId/enrollments/:enrollmentId')], past
    [requireAuth]; [courseId] is not read. *)
Definition deleteEnrollmentHandler (courseId enrollmentId : Z) : Task Response :=
  let* enrollment := GetEnrollment enrollmentId in
  match enrollment with
  | None => Ret (SendJson 404 (JError "Enrollment not found"))
  | Some enrollment =>
      stopAndRemove (e_container_id enrollment)
        (DeleteEnrollment enrollmentId ;; Ret (SendJson 200 JSuccess))
  end.

(** [db.endExamSession(session.id)] and [sessions.delete(containerName)]. *)
Definition markEnded {R : Type} (session : ExamSession) (k : Task R) : Task R :=
  EndExamSession (es_id session) ;;
  SessionsDelete (examContainerName (es_assignment_id session) (es_student_id session)) ;;
  k.

(** [app.post('/api/exam-sessions/:id/end')], past [requireAuth]. *)
Definition endExam (id : Z) : Task Response :=
  let* session := GetExamSession id in
  match session with
  | None => Ret (SendJson 404 (JError "Exam session not found"))
  | Some session =>
      stopAndRemove (es_container_id session)
        (markEnded session (Ret (SendJson 200 JSuccess)))
  end.

(** [for (const session of activeSessions) { ... }] of the two sweeps;
    answers the final [terminated]. *)
Fixpoint expire (now : Z) (activeSessions : list ActiveExamSession) (terminated : nat)
  : Task nat :=
  match activeSessions with
  | [] => Ret terminated
  | session :: rest =>
      if dateBefore (end_time session) now
      then stopAndRemove (es_container_id (row session))
             (markEnded (row session) (expire now rest (S terminated)))
      else expire now rest terminated
  end.

(** [app.post('/api/exam-sessions/check-expired')], past [requireAuth]. *)
Definition checkExpired : Task Response :=
  let* activeSessions := GetActiveExamSessions in
  let* now := Now in
  call* terminated := expire now activeSessions 0 in
  Ret (SendJson 200 (JTerminated terminated (length activeSessions))).

(** The callback of [setInterval(..., 60000)]. *)
Definition sweep : Task unit :=
  let* activeSessions := GetActiveExamSessions in
  let* now := Now in
  call* terminated := expire now activeSessions 0 in
  Ret tt.

(** *** Observations on runs *)

(** The effects performed between two worlds of one run. *)
Definition events {RT : Runtime} (w w' : World) : list Eff :=
  drop (length (trace w)) (trace w').

Definition isMutatingCall (e : Eff) : bool :=
  match e with Docker c => mutating c | _ => false end.

Definition isDockerCall (e : Eff) : bool :=
  match e with Docker _ => true | _ => false end.

(** The value [/access/:token] stores in [sessions]. *)
Definition registered (e : Enrollment) (container : string) (now : Z) : Session :=
  {| containerId := container; enrollmentId := Some (e_id e); examSessionId := None;
     imageId := e_environment_image e; imageName := Some (e_course_name e);
     isExam := false; created := now |}.

(** The redirect of [/access/:token]. *)
Definition redirected (e : Enrollment) : Response :=
  Redirect "/student.html" [("session", getContainerName e); ("course", e_course_name e)].

(** The calls on the runtime among some effects, in order. *)
Definition dockerCalls (evs : list Eff) : list Eff := List.filter isDockerCall evs.

(** The refusals of [/exam/:assignmentId/:token]. *)
Definition notStarted {CFG : Config} (start : option Z) : Response :=
  Send 403 ("Exam has not started yet. Start time: " +:+ toLocaleString start).

Definition ended : Response :=
  Send 403 "Exam has ended. The submission window is closed.".

Definition alreadySubmitted : Response :=
  Send 403 "You have already completed this exam.".

(** The row [createExamSession] inserts. *)
Definition newExamSession (d : Db) (now : Z) (assignmentId studentId : Z)
           (workVolumePath : string) : ExamSession :=
  {| es_id := nextRowid d; es_assignment_id := assignmentId; es_student_id := studentId;
     es_container_id := None; es_work_volume_path := Some workVolumePath;
     es_status := active; es_started_at := Some now; es_ended_at := None |}.

(** The table after [createExamSession]. *)
Definition inserted (d : Db) (now : Z) (assignmentId studentId : Z) (workVolumePath : string)
  : Db :=
  {| enrollments := enrollments d; assignments := assignments d;
     exam_sessions :=
       exam_sessions d ++ [newExamSession d now assignmentId studentId workVolumePath];
     exam_sessions_seq := nextRowid d |}.

(** The redirect of [/exam/:assignmentId/:token] and the value it stores in
    [sessions]. *)
Definition examRedirect (exam : Assignment) (containerName : string) : Response :=
  Redirect "/exam.html"
    [("session", containerName); ("exam", a_title exam); ("end", rawOrEmpty (a_end_time exam))].

Definition examRegistered (exam : Assignment) (s : ExamSession) (container : string) (now : Z)
  : Session :=
  {| containerId := container; enrollmentId := None; examSessionId := Some (es_id s);
     imageId := a_environment_image exam; imageName := Some (a_title exam);
     isExam := true; created := now |}.

(** The session key a redirect carries. *)
Definition sessionKey (r : Response) : option string :=
  match r with
  | Redirect _ ((_, key) :: _) => Some key
  | _ => None
  end.

Definition pairOf (s : ExamSession) : Z * Z := (es_assignment_id s, es_student_id s).

(** The statuses other than [completed]. *)
Definition open (st : Status) : bool := negb (Status_eqb st completed).

(** Among the exam sessions whose status satisfies [Q], at most one per
    (assignment, student). *)
Definition uniquePairs (Q : Status -> bool) (d : Db) : Prop :=
  NoDup (map pairOf (List.filter (fun s => Q (es_status s)) (exam_sessions d))).

(** At most one exam session that is not completed per (assignment,
    student). *)
Definition oneOpenPerPair (d : Db) : Prop := uniquePairs open d.

(** At most one exam session of any status per (assignment, student). *)
Definition onePerPair (d : Db) : Prop := uniquePairs (fun _ => true) d.

(** A handler, or what is left of one, that inserts no exam session. *)
Inductive NoCreate {R : Type} : Task R -> Prop :=
| NoCreate_Ret (r : R) : NoCreate (Ret r)
| NoCreate_Do (e : Eff) (k : reply e -> Task R) :
    (forall a s p, e <> CreateExamSession a s p) ->
    (forall x, NoCreate (k x)) ->
    NoCreate (Do e k).

(** A handler in flight that keeps the exam sessions unique per pair: one
    that inserts none, or an exam access that has not yet run. *)
Definition careful {CFG : Config} (t : Task Response) : Prop :=
  NoCreate t \/ exists assignmentId token, t = examAccess assignmentId token.

(** [id INTEGER PRIMARY KEY] on [exam_sessions]. *)
Definition primaryKey (d : Db) : Prop :=
  NoDup (map es_id (exam_sessions d)).

(** [if (session.container_id)] *)
Definition containerOf (s : ExamSession) : option string :=
  match es_container_id s with
  | Some c => if String.eqb c "" then None else Some c
  | None => None
  end.


(** The rows a sweep at [now] ends. *)
Definition expired (now : Z) (l : list ActiveExamSession) : list ActiveExamSession :=
  List.filter (fun session => dateBefore (end_time session) now) l.

(** [endExamSession] on each of [ids] in turn. *)
Definition endAll (d : Db) (now : Z) (ids : list Z) : Db :=
  fold_left (fun d id => endExamSession d now id) ids d.

(** One tick of the sweeper at each of [clocks] in turn. *)
Definition sweeps {RT : Runtime} (clocks : list Z) (w : World) : World :=
  fold_left (fun w t => fst (run sweep (setClock w t))) clocks w.

(** The calls the block shared by the termination paths makes on a runtime
    in state [rt] for the container column [container_id], and the state
    they leave. *)
Definition cleanup {RT : Runtime} (container_id : option string) (rt : RtState)
  : list Eff * RtState :=
  match container_id with
  | None => ([], rt)
  | Some c =>
      if String.eqb c "" then ([], rt)
      else
        match rtExec (Stop c) rt with
        | (rt1, Rejected _) => ([Docker (Stop c)], rt1)
        | (rt1, Ok _) => ([Docker (Stop c); Docker (Remove c)], fst (rtExec (Remove c) rt1))
        end
  end.

(** The registry without the keys of the exam containers of [l]. *)
Definition forgetAll (m : gmap string Session) (l : list ExamSession) : gmap string Session :=
  fold_left (fun m s => delete (examContainerName (es_assignment_id s) (es_student_id s)) m) l m.

(** The ids of the rows a sweep at [now] ends. *)
Definition expiredIds (now : Z) (d : Db) : list Z :=
  map (fun session => es_id (row session)) (expired now (getActiveExamSessions d)).

(** *** Proof steps *)

(** One step of a run on a world given by its fields. *)
Ltac wstep :=
  cbn [run handle perform];
  unfold record, setDb, setSessions, setFs, setRuntime;
  cbn [db sessions files dirs clock runtime trace fst snd].

(** One step of a synchronous stretch on a world given by its fields. *)
Ltac sstep :=
  cbn [resume runSync isAsync handle perform];
  unfold record, setDb, setSessions, setFs, setRuntime;
  cbn [db sessions files dirs clock runtime trace fst snd].

(** A handler built from effects other than the insert of an exam session. *)
Ltac nocreate :=
  repeat match goal with
         | |- NoCreate (Ret _) => apply NoCreate_Ret
         | |- NoCreate (Do _ _) => apply NoCreate_Do; [intros ? ? ?; discriminate | intros ?]
         | |- NoCreate (match ?x with _ => _ end) => destruct x
         end.

End Gateway.

(* ===================================================================== *)
(** ** A container runtime                                                *)
(* ===================================================================== *)

(** The answers of the Docker Engine as dockerode passes them on: a status
    other than the success status of the call rejects the promise (304 for a
    start of a started container or a stop of a stopped one, 404 for an
    unknown container, 409 for a name in use or a removal of a running
    container). *)
Module Engine.
Import Gateway.

Record Container := {
  id : string;
  cname : string;
  running : bool
}.

Record State := {
  containers : list Container;
  created_count : Z
}.

(** A reference resolves by id or by name. *)
Definition refers (ref : string) (c : Container) : bool :=
  String.eqb (id c) ref || String.eqb (cname c) ref.

Definition lookup (s : State) (ref : string) : option Container :=
  List.find (refers ref) (containers s).

Definition named (s : State) (n : string) : list Container :=
  List.filter (fun c => String.eqb (cname c) n) (containers s).

Definition setRunning (s : State) (ref : string) (b : bool) : State :=
  {| containers :=
       map (fun c => if refers ref c
                     then {| id := id c; cname := cname c; running := b |}
                     else c)
           (containers s);
     created_count := created_count s |}.

Definition exec (c : DockerCall) (s : State) : State * Result (fulfilled c) :=
  match c return State * Result (fulfilled c) with
  | Inspect ref =>
      match lookup s ref with
      | Some k => (s, Ok (running k))
      | None => (s, Rejected 404)
      end
  | CreateContainer opts =>
      match named s (name opts) with
      | _ :: _ => (s, Rejected 409)
      | [] =>
          let n := created_count s + 1 in
          let newId := "container-" +:+ pretty n in
          ({| containers := containers s ++
                            [ {| id := newId; cname := name opts; running := false |} ];
              created_count := n |}, Ok newId)
      end
  | Start ref =>
      match lookup s ref with
      | None => (s, Rejected 404)
      | Some k => if running k then (s, Rejected 304) else (setRunning s ref true, Ok tt)
      end
  | Stop ref =>
      match lookup s ref with
      | None => (s, Rejected 404)
      | Some k => if running k then (setRunning s ref false, Ok tt) else (s, Rejected 304)
      end
  | Remove ref =>
      match lookup s ref with
      | None => (s, Rejected 404)
      | Some k =>
          if running k then (s, Rejected 409)
          else ({| containers := List.filter (fun c => negb (refers ref c)) (containers s);
                   created_count := created_count s |}, Ok tt)
      end
  end.

#[export] Instance engine : Runtime := {| RtState := State; rtExec := exec |}.

Definition empty : State := {| containers := []; created_count := 0 |}.

(** Container names are unique. *)
Definition uniqueNames (s : State) : Prop := NoDup (map cname (containers s)).

End Engine.

(* ===================================================================== *)
(** ** Scenarios                                                          *)
(* ===================================================================== *)

Module Scenario.
Import Gateway.

(** The process with no environment variable set; dates print as their
    time value. *)
Definition defaults : Config :=
  {| DATA_DIR := "/data"; HOST_DATA_DIR := "/data";
     DOCKER_NETWORK := "secure-exam_vnc-internal";
     toLocaleString := fun t => match t with Some ms => pretty ms | None => "Invalid Date" end |}.

(** Token [tok-A], bound to the enrollment of student 7 in course 3. *)
Definition enrollmentA : Enrollment :=
  {| e_id := 1; e_student_id := 7; e_course_id := 3; e_container_id := None;
     e_container_status := "stopped"; e_access_token := "tok-A";
     e_course_name := "Algorithms";
     e_environment_image := Some "exam-desktop-vscode-python";
     e_first_name := "Ada"; e_last_name := "Lovelace"; e_email := "ada@example.org" |}.

(** Token [tok-B], bound to the enrollment of student 4 in course 3. *)
Definition enrollmentB : Enrollment :=
  {| e_id := 2; e_student_id := 4; e_course_id := 3; e_container_id := None;
     e_container_status := "stopped"; e_access_token := "tok-B";
     e_course_name := "Algorithms";
     e_environment_image := Some "exam-desktop-vscode-python";
     e_first_name := "Alan"; e_last_name := "Turing"; e_email := "alan@example.org" |}.

(** Exam 9 of course 3, open from 1000 to 2000. *)
Definition exam9 : Assignment :=
  {| a_id := 9; a_course_id := 3; a_title := "Midterm"; a_folder_name := "midterm";
     a_instructions_md := Some "Answer all questions."; a_is_exam := true;
     a_start_time := Some {| raw := "2026-01-05T10:00"; timeValue := Some 1000 |};
     a_end_time := Some {| raw := "2026-01-05T12:00"; timeValue := Some 2000 |};
     a_due_date := None; a_course_name := "Algorithms";
     a_environment_image := Some "exam-desktop-vscode-python" |}.

(** Exam 10 of course 3, with neither start nor end. *)
Definition exam10 : Assignment :=
  {| a_id := 10; a_course_id := 3; a_title := "Practice"; a_folder_name := "practice";
     a_instructions_md := None; a_is_exam := true;
     a_start_time := None; a_end_time := None;
     a_due_date := None; a_course_name := "Algorithms";
     a_environment_image := None |}.

Definition session (id assignment student : Z) (container : option string) (st : Status)
  : ExamSession :=
  {| es_id := id; es_assignment_id := assignment; es_student_id := student;
     es_container_id := container; es_work_volume_path := None;
     es_status := st; es_started_at := Some 1000; es_ended_at := None |}.

Definition database (l : list ExamSession) : Db :=
  {| enrollments := [enrollmentA; enrollmentB]; assignments := [exam9; exam10];
     exam_sessions := l; exam_sessions_seq := 0 |}.

(** A world on the Engine with no container yet. *)
Definition world (l : list ExamSession) (now : Z) : @World Engine.engine :=
  @Build_World Engine.engine (database l) ∅ ∅ ∅ now Engine.empty [].

(** A world on an Engine that holds the containers [cs]. *)
Definition worldWith (cs : list Engine.Container) (l : list ExamSession) (now : Z)
  : @World Engine.engine :=
  @Build_World Engine.engine (database l) ∅ ∅ ∅ now
    {| Engine.containers := cs; Engine.created_count := Z.of_nat (length cs) |} [].

Definition desktop (name : string) (up : bool) : Engine.Container :=
  {| Engine.id := "container-1"; Engine.cname := name; Engine.running := up |}.

(** The runtime as the loser of a race on a name meets it: the container is
    not there when inspected, and the name is taken when created. *)
Definition contended : Runtime :=
  {| RtState := unit;
     rtExec := fun c s =>
       (s, match c return Result (fulfilled c) with
           | Inspect _ => Rejected 404
           | CreateContainer _ => Rejected 409
           | Start _ | Stop _ | Remove _ => Rejected 404
           end) |}.

Definition contendedWorld (l : list ExamSession) (now : Z) : @World contended :=
  @Build_World contended (database l) ∅ ∅ ∅ now tt [].

(** A runtime that is out of reach: every call is rejected. *)
Definition unreachable : Runtime :=
  {| RtState := unit;
     rtExec := fun c s => (s, Rejected 500) |}.

End Scenario.

(* ===================================================================== *)
(** ** Accounts: authentication and professor management                  *)
(* ===================================================================== *)

Module Admin.

(** A row of [professors]; [None] is NULL. *)
Record Professor := {
  p_id : Z;
  p_email : string;
  p_password_hash : string;
  p_name : option string;
  p_role : option string;
  p_status : option string
}.

(** The [professors] table with its AUTOINCREMENT counter, and the
    [settings] table. *)
Record Store := {
  professors : list Professor;
  professors_seq : Z;
  settings : gmap string string
}.

(** [req.session] *)
Record ReqSession := {
  professorId : option Z;
  professorEmail : option string;
  professorName : option string;
  role : option string
}.

Definition anonymous : ReqSession :=
  {| professorId := None; professorEmail := None; professorName := None; role := None |}.

(** bcryptjs, with the salt left out of sight. *)
Class Bcrypt := {
  hashSync : string -> string;
  compareSync : string -> string -> bool
}.

(** What a handler or a middleware answers; [Next] is the call of
    [next()], [StatementFailed] the status 500 with the message of the
    statement that SQLite refused. *)
Inductive Answer :=
| Next
| Error (status : Z) (error : string)
| RedirectTo (location : string)
| Success
| LoggedIn (id : Z) (email : string) (name : option string) (role : option string)
| SignedUp (message : string) (waitlist : bool)
| StatementFailed.

(** [x === 'text'] on a nullable column or an optional field. *)
Definition equals (x : option string) (text : string) : bool :=
  match x with Some s => String.eqb s text | None => false end.

(** [!x] on an optional string field. *)
Definition missing (x : option string) : bool :=
  match x with Some s => String.eqb s "" | None => true end.

(** [req.session && req.session.professorId]; ids start at 1. *)
Definition authenticated (s : ReqSession) : bool :=
  match professorId s with Some i => negb (i =? 0) | None => false end.

Definition requireAuth (s : ReqSession) (path : string) : Answer :=
  if authenticated s then Next
  else if String.prefix "/api/" path then Error 401 "Unauthorized"
  else RedirectTo "/login".

Definition requireAdmin (s : ReqSession) (path : string) : Answer :=
  if equals (role s) "admin" then Next
  else if String.prefix "/api/" path then Error 403 "Admin access required"
  else RedirectTo "/professor.html".

(** A route declared with [requireAuth, requireAdmin, handler]: the answer
    of the first middleware that does not call [next()], or the
    handler's. *)
Definition adminRoute (s : ReqSession) (path : string) (handler : Answer) : Answer :=
  match requireAuth s path with
  | Next => match requireAdmin s path with
            | Next => handler
            | refusal => refusal
            end
  | refusal => refusal
  end.

(** *** [db.js] *)

Definition getProfessor (st : Store) (id : Z) : option Professor :=
  List.find (fun p => p_id p =? id) (professors st).

Definition getProfessorByEmail (st : Store) (email : string) : option Professor :=
  List.find (fun p => String.eqb (p_email p) email) (professors st).

Definition getSetting (st : Store) (key : string) : option string := settings st !! key.

Definition verifyProfessorPassword {B : Bcrypt} (st : Store) (email password : string)
  : option Professor :=
  match getProfessorByEmail st email with
  | None => None
  | Some professor =>
      if compareSync password (p_password_hash professor) then Some professor else None
  end.

(** The next rowid of [professors]. *)
Definition nextId (st : Store) : Z :=
  1 + fold_right Z.max (professors_seq st) (map p_id (professors st)).

(** [createProfessor]: the INSERT fails on an email already present
    (UNIQUE); otherwise it answers the new rowid. *)
Definition createProfessor {B : Bcrypt} (st : Store) (email password : string)
           (name : option string) (role status : string) : option (Store * Z) :=
  match getProfessorByEmail st email with
  | Some _ => None
  | None =>
      let id := nextId st in
      Some ({| professors :=
                 professors st ++
                 [ {| p_id := id; p_email := email; p_password_hash := hashSync password;
                      p_name := name; p_role := Some role; p_status := Some status |} ];
               professors_seq := id;
               settings := settings st |}, id)
  end.

(** [updateProfessor]: the UPDATE fails on a NULL email (NOT NULL) and on an
    email held by another row (UNIQUE), and then changes nothing. *)
Definition updateProfessor (st : Store) (id : Z) (email name role status : option string)
  : option Store :=
  match email with
  | None => if existsb (fun p => p_id p =? id) (professors st) then None else Some st
  | Some email =>
      if existsb (fun p => (p_id p =? id) &&
                           existsb (fun q => negb (p_id q =? id) && String.eqb (p_email q) email)
                                   (professors st))
                 (professors st)
      then None
      else Some {| professors :=
                     map (fun p =>
                            if p_id p =? id
                            then {| p_id := p_id p; p_email := email;
                                    p_password_hash := p_password_hash p;
                                    p_name := name; p_role := role; p_status := status |}
                            else p)
                         (professors st);
                   professors_seq := professors_seq st;
                   settings := settings st |}
  end.

Definition deleteProfessor (st : Store) (id : Z) : Store :=
  {| professors := List.filter (fun p => negb (p_id p =? id)) (professors st);
     professors_seq := professors_seq st;
     settings := settings st |}.

(** [p.role === 'admin'] *)
Definition isAdmin (p : Professor) : bool := equals (p_role p) "admin".

(** [db.getProfessors().filter(p => p.role === 'admin')] *)
Definition admins (st : Store) : list Professor :=
  List.filter isAdmin (professors st).

(** The rows of [l] with the row of key [id] rewritten by [f]. *)
Definition rewriteRow (id : Z) (f : Professor -> Professor) (l : list Professor)
  : list Professor :=
  map (fun q => if p_id q =? id then f q else q) l.

Definition removeRow (id : Z) (l : list Professor) : list Professor :=
  List.filter (fun q => negb (p_id q =? id)) l.

Definition count (b : bool) : nat := if b then 1%nat else 0%nat.

(** *** Handlers *)

Section Handlers.
Context {B : Bcrypt}.

(** [app.post('/api/login')] *)
Definition login (st : Store) (s : ReqSession) (email password : option string)
  : ReqSession * Answer :=
  if missing email || missing password
  then (s, Error 400 "Email and password are required")
  else
    match verifyProfessorPassword st (default "" email) (default "" password) with
    | None => (s, Error 401 "Invalid email or password")
    | Some professor =>
        if equals (p_status professor) "waitlist"
        then (s, Error 403
                   "Your account is pending approval. Please contact an administrator.")
        else if equals (p_status professor) "disabled"
        then (s, Error 403
                   "Your account has been disabled. Please contact an administrator.")
        else
          ({| professorId := Some (p_id professor);
              professorEmail := Some (p_email professor);
              professorName := p_name professor;
              role := p_role professor |},
           LoggedIn (p_id professor) (p_email professor) (p_name professor)
                    (p_role professor))
    end.

(** [app.post('/api/signup')] *)
Definition signup (st : Store) (email password name : option string) : Store * Answer :=
  if missing email || missing password || missing name
  then (st, Error 400 "Email, password, and name are required")
  else if (String.length (default "" password) <? 6)%nat
  then (st, Error 400 "Password must be at least 6 characters")
  else
    match getProfessorByEmail st (default "" email) with
    | Some _ => (st, Error 400 "An account with this email already exists")
    | None =>
        let waitlistEnabled := equals (getSetting st "waitlist_enabled") "true" in
        let status := if waitlistEnabled then "waitlist" else "active" in
        match createProfessor st (default "" email) (default "" password) name
                              "professor" status with
        | None => (st, Error 500 "Failed to create account")
        | Some (st', _) =>
            (st', if waitlistEnabled
                  then SignedUp
                         "Account created. Your account is pending approval by an administrator."
                         true
                  else SignedUp "Account created successfully. You can now log in." false)
        end
    end.

End Handlers.

(** [app.put('/api/professors/:id')], past the two middlewares. *)
Definition putProfessor (st : Store) (id : Z) (email name newRole status : option string)
  : Store * Answer :=
  match getProfessor st id with
  | None => (st, Error 404 "Professor not found")
  | Some professor =>
      if equals (p_role professor) "admin" && negb (equals newRole "admin") &&
         (length (admins st) <=? 1)%nat
      then (st, Error 400 "Cannot demote the last administrator")
      else
        match updateProfessor st id email name newRole status with
        | None => (st, StatementFailed)
        | Some st' => (st', Success)
        end
  end.

(** [app.delete('/api/professors/:id')], past the two middlewares. *)
Definition deleteProfessorHandler (st : Store) (s : ReqSession) (id : Z) : Store * Answer :=
  match getProfessor st id with
  | None => (st, Error 404 "Professor not found")
  | Some professor =>
      if equals (p_role professor) "admin" && (length (admins st) <=? 1)%nat
      then (st, Error 400 "Cannot delete the last administrator")
      else if match professorId s with Some i => p_id professor =? i | None => false end
      then (st, Error 400 "Cannot delete your own account")
      else (deleteProfessor st id, Success)
  end.

(** [app.post('/api/professors/:id/approve')] *)
Definition approve (st : Store) (id : Z) : Store * Answer :=
  match getProfessor st id with
  | None => (st, Error 404 "Professor not found")
  | Some professor =>
      if negb (equals (p_status professor) "waitlist")
      then (st, Error 400 "Professor is not on waitlist")
      else
        match updateProfessor st id (Some (p_email professor)) (p_name professor)
                              (p_role professor) (Some "active") with
        | None => (st, StatementFailed)
        | Some st' => (st', Success)
        end
  end.

(** [app.post('/api/professors/:id/promote')] *)
Definition promote (st : Store) (id : Z) : Store * Answer :=
  match getProfessor st id with
  | None => (st, Error 404 "Professor not found")
  | Some professor =>
      if equals (p_role professor) "admin"
      then (st, Error 400 "Professor is already an admin")
      else
        match updateProfessor st id (Some (p_email professor)) (p_name professor)
                              (Some "admin") (p_status professor) with
        | None => (st, StatementFailed)
        | Some st' => (st', Success)
        end
  end.

(** The requests of professor management. *)
Inductive Request :=
| Put (id : Z) (email name role status : option string)
| Delete (id : Z)
| Approve (id : Z)
| Promote (id : Z).

(** A request on an admin route, as [s] sends it. *)
Definition manage (st : Store) (s : ReqSession) (r : Request) : Store * Answer :=
  match adminRoute s "/api/professors" Next with
  | Next =>
      match r with
      | Put id email name role status => putProfessor st id email name role status
      | Delete id => deleteProfessorHandler st s id
      | Approve id => approve st id
      | Promote id => promote st id
      end
  | refusal => (st, refusal)
  end.

(** [id INTEGER PRIMARY KEY] on [professors]. *)
Definition primaryKey (st : Store) : Prop := NoDup (map p_id (professors st)).

(** The requests that write to [professors]: those of professor management,
    each with the session that sends it, and the public signup. *)
Inductive Operation :=
| Manage (s : ReqSession) (r : Request)
| Signup (email password name : option string).

Definition execute {B : Bcrypt} (st : Store) (op : Operation) : Store :=
  match op with
  | Manage s r => fst (manage st s r)
  | Signup email password name => fst (signup st email password name)
  end.

Definition serve {B : Bcrypt} (st : Store) (ops : list Operation) : Store :=
  fold_left execute ops st.

(** An administrator's session. *)
Definition isAdminSession (s : ReqSession) : bool :=
  authenticated s && equals (role s) "admin".

(** A store with the seeded demo administrator alone. *)
Definition seeded {B : Bcrypt} (waitlist : string) : Store :=
  {| professors :=
       [ {| p_id := 1; p_email := "demo@example.com"; p_password_hash := hashSync "demo123";
            p_name := Some "Demo Professor"; p_role := Some "admin";
            p_status := Some "active" |} ];
     professors_seq := 1;
     settings := {[ "waitlist_enabled" := waitlist ]} |}.

(** A stand-in for bcrypt that keeps the password as its hash. *)
Definition plain : Bcrypt :=
  {| hashSync := fun p => p; compareSync := fun p h => String.eqb p h |}.

End Admin.

(* ===================================================================== *)
(** ** Facts about the relay                                              *)
(* ===================================================================== *)

Module RelayFacts.
Import Relay.

Lemma to_N_6 (b : byte) : (Z.of_N (Byte.to_N b) =? ClientCutText) = Byte.eqb b x06.
Proof. destruct b; reflexivity. Qed.

Lemma to_N_3 (b : byte) : (Z.of_N (Byte.to_N b) =? ServerCutText) = Byte.eqb b x03.
Proof. destruct b; reflexivity. Qed.

Lemma clientOnMessage_buffer (s : ReadyState) (b : byte) (rest : list byte) :
  clientOnMessage s (Buffer (b :: rest)) =
  if Byte.eqb b x06 then None
  else if ReadyState_eqb s OPEN then Some (Buffer (b :: rest)) else None.
Proof.
  unfold clientOnMessage, dataLength, index0, strictEq. cbn [isBuffer payload andb].
  replace (0 <? Z.of_nat (length (b :: rest))) with true
    by (symmetry; apply Z.ltb_lt; cbn [length]; lia).
  now rewrite to_N_6.
Qed.

Lemma targetOnMessage_buffer (s : ReadyState) (b : byte) (rest : list byte) :
  targetOnMessage s (Buffer (b :: rest)) =
  if Byte.eqb b x03 then None
  else if ReadyState_eqb s OPEN then Some (Buffer (b :: rest)) else None.
Proof.
  unfold targetOnMessage, dataLength, index0, strictEq. cbn [isBuffer payload andb].
  replace (0 <? Z.of_nat (length (b :: rest))) with true
    by (symmetry; apply Z.ltb_lt; cbn [length]; lia).
  now rewrite to_N_3.
Qed.

(** A clipboard message is dropped whatever the state of the other socket. *)
Lemma client_cut_text_dropped (s : ReadyState) (rest : list byte) :
  clientOnMessage s (Buffer (x06 :: rest)) = None.
Proof. now rewrite clientOnMessage_buffer. Qed.

Lemma server_cut_text_dropped (s : ReadyState) (rest : list byte) :
  targetOnMessage s (Buffer (x03 :: rest)) = None.
Proof. now rewrite targetOnMessage_buffer. Qed.

(** Nothing is handed to a socket that is not open. *)
Lemma not_open_nothing_sent (s : ReadyState) (data : WsData) :
  s <> OPEN -> clientOnMessage s data = None /\ targetOnMessage s data = None.
Proof.
  intros Hs. unfold clientOnMessage, targetOnMessage.
  destruct s; try congruence; cbn [ReadyState_eqb];
    split; repeat match goal with |- context [if ?c then _ else _] => destruct c end;
    reflexivity.
Qed.

Lemma unguarded_forwarded (s : ReadyState) (data : WsData) :
  isBuffer data = false \/ dataLength data = 0 ->
  clientOnMessage s data = (if ReadyState_eqb s OPEN then Some data else None) /\
  targetOnMessage s data = (if ReadyState_eqb s OPEN then Some data else None).
Proof.
  intros [H | H]; unfold clientOnMessage, targetOnMessage; rewrite H.
  - now cbn [andb].
  - now rewrite andb_false_r.
Qed.

(** The sockets keep their state across messages. *)
Lemma step_message_sockets (p : Pair) (ev : Event) :
  isMessage ev = true ->
  clientWs (step p ev) = clientWs p /\ targetWs (step p ev) = targetWs p.
Proof. destruct ev; cbn; intros; try discriminate; now split. Qed.

Lemma clientOnMessage_open (data : WsData) :
  clientOnMessage OPEN data = if passes ClientCutText data then Some data else None.
Proof.
  unfold clientOnMessage, passes. cbn [ReadyState_eqb].
  destruct (isBuffer data && (0 <? dataLength data)); cbn [andb negb];
    [destruct (strictEq _ _)|]; reflexivity.
Qed.

Lemma targetOnMessage_open (data : WsData) :
  targetOnMessage OPEN data = if passes ServerCutText data then Some data else None.
Proof.
  unfold targetOnMessage, passes. cbn [ReadyState_eqb].
  destruct (isBuffer data && (0 <? dataLength data)); cbn [andb negb];
    [destruct (strictEq _ _)|]; reflexivity.
Qed.

(** While both sockets stay open, each side is handed the other side's
    messages in order, less the clipboard messages: nothing is reordered,
    batched or altered. *)
Lemma relay_stream (evs : list Event) (p : Pair) :
  clientWs p = OPEN -> targetWs p = OPEN ->
  forallb isMessage evs = true ->
  toTarget (relay p evs) = toTarget p ++ List.filter (passes ClientCutText) (fromClient evs) /\
  toClient (relay p evs) = toClient p ++ List.filter (passes ServerCutText) (fromTarget evs).
Proof.
  revert p. induction evs as [|ev evs IH]; intros p Hc Ht Hall.
  - cbn. now rewrite !app_nil_r.
  - cbn [forallb] in Hall. apply andb_true_iff in Hall as [Hev Hall].
    destruct (step_message_sockets p ev Hev) as [Hc' Ht'].
    unfold relay in *. cbn [fold_left].
    destruct (IH (step p ev)) as [IH1 IH2]; [congruence | congruence | assumption |].
    rewrite IH1, IH2. clear IH IH1 IH2.
    destruct ev as [d | d | |]; try discriminate; cbn [step toTarget toClient].
    + rewrite Ht, clientOnMessage_open.
      change (fromClient (ClientMessage d :: evs)) with (d :: fromClient evs).
      change (fromTarget (ClientMessage d :: evs)) with (fromTarget evs).
      cbn [List.filter].
      destruct (passes ClientCutText d); cbn [deliver]; split; try reflexivity.
      now rewrite <- app_assoc.
    + rewrite Hc, targetOnMessage_open.
      change (fromClient (TargetMessage d :: evs)) with (fromClient evs).
      change (fromTarget (TargetMessage d :: evs)) with (d :: fromTarget evs).
      cbn [List.filter].
      destruct (passes ServerCutText d); cbn [deliver]; split; try reflexivity.
      now rewrite <- app_assoc.
Qed.

(** Once a side has closed, nothing more reaches it. *)
Lemma closed_target_receives_nothing (p : Pair) (data : WsData) :
  toTarget (step (step p TargetClose) (ClientMessage data)) = toTarget p.
Proof.
  cbn. destruct (not_open_nothing_sent CLOSED data) as [-> _]; [discriminate | reflexivity].
Qed.

(** C1.  While a connection is relaying (both sockets open), a Buffer from
    the browser whose first byte is 6 is handed to neither socket, a Buffer
    from the container whose first byte is 3 is handed to neither socket, and
    a Buffer with any other first byte is handed, as it is, to the opposite
    socket and to no other. *)
Theorem relay_filters_clipboard (p : Pair) (b : byte) (rest : list byte) :
  clientWs p = OPEN -> targetWs p = OPEN ->
  let data := Buffer (b :: rest) in
  toTarget (step p (ClientMessage data))
    = (if Byte.eqb b x06 then toTarget p else toTarget p ++ [data]) /\
  toClient (step p (ClientMessage data)) = toClient p /\
  toClient (step p (TargetMessage data))
    = (if Byte.eqb b x03 then toClient p else toClient p ++ [data]) /\
  toTarget (step p (TargetMessage data)) = toTarget p.
Proof.
  intros Hc Ht data. subst data. cbn [step toTarget toClient].
  rewrite Hc, Ht, clientOnMessage_buffer, targetOnMessage_buffer. cbn [ReadyState_eqb].
  repeat split; match goal with |- context [Byte.eqb ?x ?y] => destruct (Byte.eqb x y) end;
    reflexivity.
Qed.

Lemma relay_filters_clipboard_witness :
  toTarget (step relaying (ClientMessage (Buffer [x06; x00; x00; x00]))) = [] /\
  toClient (step relaying (TargetMessage (Buffer [x03; x00]))) = [] /\
  toTarget (step relaying (ClientMessage (Buffer [x04; x01]))) = [Buffer [x04; x01]] /\
  toClient (step relaying (TargetMessage (Buffer [x00; x00]))) = [Buffer [x00; x00]].
Proof.
  split; [| split; [| split]].
  - apply (relay_filters_clipboard relaying x06 [x00; x00; x00]); reflexivity.
  - apply (relay_filters_clipboard relaying x03 [x00]); reflexivity.
  - apply (relay_filters_clipboard relaying x04 [x01]); reflexivity.
  - apply (relay_filters_clipboard relaying x00 [x00]); reflexivity.
Defined.

(** C9.  While a connection is relaying, a message that is not a Buffer, or
    whose length is zero, is handed unchanged to the opposite socket in both
    directions, whatever bytes it carries: its first byte is not looked at. *)
Theorem relay_inspects_only_nonempty_buffers (p : Pair) (data : WsData) :
  clientWs p = OPEN -> targetWs p = OPEN ->
  isBuffer data = false \/ dataLength data = 0 ->
  toTarget (step p (ClientMessage data)) = toTarget p ++ [data] /\
  toClient (step p (TargetMessage data)) = toClient p ++ [data].
Proof.
  intros Hc Ht H. cbn [step toTarget toClient]. rewrite Hc, Ht.
  destruct (unguarded_forwarded OPEN data H) as [-> ->]. now cbn.
Qed.

Lemma relay_inspects_only_nonempty_buffers_witness :
  toTarget (step relaying (ClientMessage (NotBuffer [x06; x41]))) = [NotBuffer [x06; x41]] /\
  toClient (step relaying (TargetMessage (NotBuffer [x06; x41]))) = [NotBuffer [x06; x41]].
Proof.
  apply (relay_inspects_only_nonempty_buffers relaying (NotBuffer [x06; x41]));
    [reflexivity | reflexivity | left; reflexivity].
Defined.

End RelayFacts.

(* ===================================================================== *)
(** ** Facts about a relayed connection over its lifetime                 *)
(* ===================================================================== *)

Module RelaySessionFacts.
Import Relay.

Lemma passes_clientOnMessage (s : ReadyState) (data sent : WsData) :
  clientOnMessage s data = Some sent -> sent = data /\ passes ClientCutText data = true.
Proof.
  unfold clientOnMessage, passes.
  destruct (isBuffer data && (0 <? dataLength data)); cbn [andb negb].
  - destruct (strictEq _ _); [discriminate |].
    destruct (ReadyState_eqb s OPEN); [intros [= <-]; now split | discriminate].
  - destruct (ReadyState_eqb s OPEN); [intros [= <-]; now split | discriminate].
Qed.

Lemma passes_targetOnMessage (s : ReadyState) (data sent : WsData) :
  targetOnMessage s data = Some sent -> sent = data /\ passes ServerCutText data = true.
Proof.
  unfold targetOnMessage, passes.
  destruct (isBuffer data && (0 <? dataLength data)); cbn [andb negb].
  - destruct (strictEq _ _); [discriminate |].
    destruct (ReadyState_eqb s OPEN); [intros [= <-]; now split | discriminate].
  - destruct (ReadyState_eqb s OPEN); [intros [= <-]; now split | discriminate].
Qed.

Lemma step_passes (p : Pair) (ev : Event) :
  Forall (fun d => passes ClientCutText d = true) (toTarget p) ->
  Forall (fun d => passes ServerCutText d = true) (toClient p) ->
  Forall (fun d => passes ClientCutText d = true) (toTarget (step p ev)) /\
  Forall (fun d => passes ServerCutText d = true) (toClient (step p ev)).
Proof.
  intros Ht Hc. destruct ev as [data | data | |]; cbn [step toTarget toClient];
    try (split; assumption).
  - split; [| exact Hc].
    destruct (clientOnMessage (targetWs p) data) as [sent|] eqn:Hs; cbn [deliver]; [| exact Ht].
    apply passes_clientOnMessage in Hs as [-> Hp].
    apply Forall_app. split; [exact Ht | now constructor].
  - split; [exact Ht |].
    destruct (targetOnMessage (clientWs p) data) as [sent|] eqn:Hs; cbn [deliver]; [| exact Hc].
    apply passes_targetOnMessage in Hs as [-> Hp].
    apply Forall_app. split; [exact Hc | now constructor].
Qed.

(** X1.  Over the whole life of a relayed connection, whatever messages and
    closes arrive and in whatever order, the container is never handed a
    nonempty Buffer whose first byte is 6, and the browser is never handed a
    nonempty Buffer whose first byte is 3. *)
Theorem clipboard_never_crosses (evs : list Event) :
  Forall (fun d => passes ClientCutText d = true) (toTarget (relay relaying evs)) /\
  Forall (fun d => passes ServerCutText d = true) (toClient (relay relaying evs)).
Proof.
  unfold relay.
  assert (H : forall p,
             Forall (fun d => passes ClientCutText d = true) (toTarget p) ->
             Forall (fun d => passes ServerCutText d = true) (toClient p) ->
             Forall (fun d => passes ClientCutText d = true) (toTarget (fold_left step evs p)) /\
             Forall (fun d => passes ServerCutText d = true) (toClient (fold_left step evs p))).
  { induction evs as [|ev evs IH]; intros p Ht Hc; cbn [fold_left]; [now split |].
    destruct (step_passes p ev Ht Hc) as [Ht' Hc']. now apply IH. }
  apply H; constructor.
Qed.

(** X2.  While both sockets stay open, each side is handed the messages of the
    other side in the order they came, each as it came and once, less the
    clipboard messages of that direction. *)
Theorem relay_keeps_order (evs : list Event) (p : Pair) :
  clientWs p = OPEN -> targetWs p = OPEN ->
  forallb isMessage evs = true ->
  toTarget (relay p evs) = toTarget p ++ List.filter (passes ClientCutText) (fromClient evs) /\
  toClient (relay p evs) = toClient p ++ List.filter (passes ServerCutText) (fromTarget evs).
Proof. exact (RelayFacts.relay_stream evs p). Qed.

Lemma relay_keeps_order_witness :
  toTarget (relay relaying
              [ ClientMessage (Buffer [x04; x01]); TargetMessage (Buffer [x00]);
                ClientMessage (Buffer [x06; x00]); ClientMessage (Buffer [x05]) ])
    = [Buffer [x04; x01]; Buffer [x05]].
Proof.
  exact (proj1 (relay_keeps_order
                  [ ClientMessage (Buffer [x04; x01]); TargetMessage (Buffer [x00]);
                    ClientMessage (Buffer [x06; x00]); ClientMessage (Buffer [x05]) ]
                  relaying eq_refl eq_refl eq_refl)).
Defined.

Lemma closed_stays_closed (evs : list Event) (p : Pair) :
  clientWs p <> OPEN -> targetWs p <> OPEN ->
  toTarget (relay p evs) = toTarget p /\ toClient (relay p evs) = toClient p.
Proof.
  unfold relay. revert p. induction evs as [|ev evs IH]; intros p Hc Ht; cbn [fold_left].
  - now split.
  - assert (Hstep : clientWs (step p ev) <> OPEN /\ targetWs (step p ev) <> OPEN /\
                    toTarget (step p ev) = toTarget p /\ toClient (step p ev) = toClient p).
    { destruct ev as [data | data | |]; cbn [step clientWs targetWs toTarget toClient].
      - destruct (RelayFacts.not_open_nothing_sent (targetWs p) data Ht) as [-> _].
        now repeat split.
      - destruct (RelayFacts.not_open_nothing_sent (clientWs p) data Hc) as [_ ->].
        now repeat split.
      - repeat split; try discriminate. destruct (targetWs p); discriminate.
      - repeat split; try discriminate. destruct (clientWs p); discriminate. }
    destruct Hstep as (Hc' & Ht' & <- & <-). now apply IH.
Qed.

(** X3.  A close ends the relay in both directions: once either side has closed,
    nothing that arrives afterwards, from either side, is handed to either
    socket. *)
Theorem nothing_relayed_after_close (p : Pair) (ev : Event) (evs : list Event) :
  isMessage ev = false ->
  toTarget (relay (step p ev) evs) = toTarget p /\
  toClient (relay (step p ev) evs) = toClient p.
Proof.
  intros Hev. destruct ev as [data | data | |]; try discriminate.
  - apply (closed_stays_closed evs (step p ClientClose)); cbn; [discriminate |].
    destruct (targetWs p); discriminate.
  - apply (closed_stays_closed evs (step p TargetClose)); cbn; [| discriminate].
    destruct (clientWs p); discriminate.
Qed.

Lemma nothing_relayed_after_close_witness :
  toTarget (relay (step relaying ClientClose)
              [ClientMessage (Buffer [x04]); TargetMessage (Buffer [x00])]) = [] /\
  toClient (relay (step relaying ClientClose)
              [ClientMessage (Buffer [x04]); TargetMessage (Buffer [x00])]) = [].
Proof.
  exact (nothing_relayed_after_close relaying ClientClose
           [ClientMessage (Buffer [x04]); TargetMessage (Buffer [x00])] eq_refl).
Defined.

End RelaySessionFacts.

(* ===================================================================== *)
(** ** Facts about lists                                                  *)
(* ===================================================================== *)

Module ListFacts.

Lemma fold_max_bound (l : list Z) (x y : Z) :
  y = x \/ In y l -> y <= fold_right Z.max x l.
Proof.
  induction l as [|a l IH]; cbn [fold_right In].
  - intros [-> | []]. lia.
  - intros [H | [H | H]];
      [specialize (IH (or_introl H)) | subst a | specialize (IH (or_intror H))]; lia.
Qed.

Lemma find_app_none {A : Type} (f : A -> bool) (l1 l2 : list A) :
  List.find f l1 = None -> List.find f (l1 ++ l2) = List.find f l2.
Proof.
  induction l1 as [|a l1 IH]; cbn [List.find app]; [reflexivity |].
  destruct (f a); [discriminate | exact IH].
Qed.

End ListFacts.

(* ===================================================================== *)
(** ** Facts about accounts                                               *)
(* ===================================================================== *)

Module AdminFacts.
Import Admin ListFacts.

Lemma find_id_In (l : list Professor) (id : Z) (p : Professor) :
  List.find (fun q => p_id q =? id) l = Some p -> In p l /\ p_id p = id.
Proof.
  intros H. apply find_some in H as [Hin Heq]. split; [assumption | now apply Z.eqb_eq].
Qed.

(** Rewriting the one row of a key changes the number of administrators by
    that row alone. *)
Lemma rewriteRow_other (l : list Professor) (id : Z) (f : Professor -> Professor) :
  ~ In id (map p_id l) -> rewriteRow id f l = l.
Proof.
  intros Hid. unfold rewriteRow. rewrite <- (map_id l) at 2. apply map_ext_in.
  intros q Hq. destruct (p_id q =? id) eqn:E; [| reflexivity].
  apply Z.eqb_eq in E. exfalso. apply Hid. rewrite <- E. now apply in_map.
Qed.

Lemma removeRow_other (l : list Professor) (id : Z) :
  ~ In id (map p_id l) -> removeRow id l = l.
Proof.
  unfold removeRow. induction l as [|b l IH]; intros Hid; [reflexivity |].
  cbn [List.filter]. destruct (p_id b =? id) eqn:E.
  - apply Z.eqb_eq in E. exfalso. apply Hid. cbn. now left.
  - cbn [negb]. f_equal. apply IH. intros Hin. apply Hid. cbn. now right.
Qed.

Lemma NoDup_cons_In (l : list Professor) (a : Professor) :
  NoDup (map p_id (a :: l)) -> ~ In (p_id a) (map p_id l) /\ NoDup (map p_id l).
Proof.
  cbn [map]. intros H. apply NoDup_cons in H as [Ha Hl]. split; [| assumption].
  intros Hin. apply Ha. now apply list_elem_of_In.
Qed.

Lemma admins_after_update (l : list Professor) (id : Z) (p : Professor)
      (f : Professor -> Professor) :
  NoDup (map p_id l) -> In p l -> p_id p = id ->
  (length (List.filter isAdmin (rewriteRow id f l)) + count (isAdmin p)
   = length (List.filter isAdmin l) + count (isAdmin (f p)))%nat.
Proof.
  induction l as [|a l IH]; intros Hnd Hin Hid; [destruct Hin |].
  apply NoDup_cons_In in Hnd as [Ha Hl].
  change (rewriteRow id f (a :: l))
    with ((if p_id a =? id then f a else a) :: rewriteRow id f l).
  destruct Hin as [-> | Hin].
  - rewrite Hid, Z.eqb_refl. rewrite Hid in Ha. rewrite (rewriteRow_other l id f Ha).
    cbn [List.filter]. unfold count.
    destruct (isAdmin p), (isAdmin (f p)); cbn [length]; lia.
  - assert (Hne : p_id a <> id).
    { intros E. apply Ha. rewrite E, <- Hid. now apply in_map. }
    apply Z.eqb_neq in Hne. rewrite Hne.
    specialize (IH Hl Hin Hid). cbn [List.filter].
    destruct (isAdmin a); cbn [length]; lia.
Qed.

Lemma admins_after_delete (l : list Professor) (id : Z) (p : Professor) :
  NoDup (map p_id l) -> In p l -> p_id p = id ->
  (length (List.filter isAdmin (removeRow id l)) + count (isAdmin p)
   = length (List.filter isAdmin l))%nat.
Proof.
  induction l as [|a l IH]; intros Hnd Hin Hid; [destruct Hin |].
  apply NoDup_cons_In in Hnd as [Ha Hl].
  change (removeRow id (a :: l))
    with (if negb (p_id a =? id) then a :: removeRow id l else removeRow id l).
  destruct Hin as [-> | Hin].
  - rewrite Hid, Z.eqb_refl. cbn [negb]. rewrite Hid in Ha.
    rewrite (removeRow_other l id Ha). cbn [List.filter]. unfold count.
    destruct (isAdmin p); cbn [length]; lia.
  - assert (Hne : p_id a <> id).
    { intros E. apply Ha. rewrite E, <- Hid. now apply in_map. }
    apply Z.eqb_neq in Hne. rewrite Hne. cbn [negb List.filter].
    specialize (IH Hl Hin Hid).
    destruct (isAdmin a); cbn [length]; lia.
Qed.

Lemma updateProfessor_admins (st st' : Store) (id : Z) (p : Professor)
      (email name newRole status : option string) :
  NoDup (map p_id (professors st)) ->
  getProfessor st id = Some p ->
  updateProfessor st id email name newRole status = Some st' ->
  (length (admins st') + count (isAdmin p)
   = length (admins st) + count (equals newRole "admin"))%nat.
Proof.
  intros Hnd Hget Hup. apply find_id_In in Hget as [Hin Hid].
  unfold updateProfessor in Hup. destruct email as [email|].
  - destruct (existsb _ _); [discriminate |]. injection Hup as <-.
    unfold admins. cbn [professors].
    apply (admins_after_update (professors st) id p
             (fun q => {| p_id := p_id q; p_email := email;
                          p_password_hash := p_password_hash q;
                          p_name := name; p_role := newRole; p_status := status |}));
      assumption.
  - destruct (existsb _ _) eqn:E; [discriminate |].
    exfalso. apply Bool.not_true_iff_false in E. apply E.
    apply existsb_exists. exists p. split; [assumption | now apply Z.eqb_eq].
Qed.

Lemma putProfessor_admins (st : Store) (id : Z) (email name newRole status : option string) :
  NoDup (map p_id (professors st)) ->
  (1 <= length (admins st))%nat ->
  (1 <= length (admins (fst (putProfessor st id email name newRole status))))%nat.
Proof.
  intros Hnd H1. unfold putProfessor.
  destruct (getProfessor st id) as [p|] eqn:Hget; [| exact H1].
  destruct (equals (p_role p) "admin" && negb (equals newRole "admin") &&
            (length (admins st) <=? 1)%nat) eqn:Hguard; [exact H1 |].
  destruct (updateProfessor st id email name newRole status) as [st'|] eqn:Hup; [| exact H1].
  cbn [fst].
  pose proof (updateProfessor_admins st st' id p email name newRole status Hnd Hget Hup) as Hc.
  unfold isAdmin, count in Hc.
  destruct (equals (p_role p) "admin"), (equals newRole "admin");
    cbn [andb negb] in Hguard; try lia.
  apply Nat.leb_gt in Hguard. lia.
Qed.

Lemma deleteProfessor_admins (st : Store) (s : ReqSession) (id : Z) :
  NoDup (map p_id (professors st)) ->
  (1 <= length (admins st))%nat ->
  (1 <= length (admins (fst (deleteProfessorHandler st s id))))%nat.
Proof.
  intros Hnd H1. unfold deleteProfessorHandler.
  destruct (getProfessor st id) as [p|] eqn:Hget; [| exact H1].
  destruct (equals (p_role p) "admin" && (length (admins st) <=? 1)%nat) eqn:Hguard;
    [exact H1 |].
  destruct (match professorId s with Some i => p_id p =? i | None => false end); [exact H1 |].
  cbn [fst]. apply find_id_In in Hget as [Hin Hid].
  pose proof (admins_after_delete (professors st) id p Hnd Hin Hid) as Hc.
  unfold admins, deleteProfessor. cbn [professors]. unfold admins in H1, Hguard.
  fold (removeRow id (professors st)). unfold isAdmin at 2, count in Hc.
  destruct (equals (p_role p) "admin"); cbn [andb] in Hguard; [| lia].
  apply Nat.leb_gt in Hguard. lia.
Qed.

Lemma approve_admins (st : Store) (id : Z) :
  NoDup (map p_id (professors st)) ->
  (1 <= length (admins st))%nat ->
  (1 <= length (admins (fst (approve st id))))%nat.
Proof.
  intros Hnd H1. unfold approve.
  destruct (getProfessor st id) as [p|] eqn:Hget; [| exact H1].
  destruct (negb (equals (p_status p) "waitlist")); [exact H1 |].
  destruct (updateProfessor st id _ _ _ _) as [st'|] eqn:Hup; [| exact H1].
  cbn [fst].
  pose proof (updateProfessor_admins st st' id p _ _ _ _ Hnd Hget Hup) as Hc.
  unfold isAdmin in Hc. lia.
Qed.

Lemma promote_admins (st : Store) (id : Z) :
  NoDup (map p_id (professors st)) ->
  (1 <= length (admins st))%nat ->
  (1 <= length (admins (fst (promote st id))))%nat.
Proof.
  intros Hnd H1. unfold promote.
  destruct (getProfessor st id) as [p|] eqn:Hget; [| exact H1].
  destruct (equals (p_role p) "admin") eqn:Hr; [exact H1 |].
  destruct (updateProfessor st id _ _ _ _) as [st'|] eqn:Hup; [| exact H1].
  cbn [fst].
  pose proof (updateProfessor_admins st st' id p _ _ _ _ Hnd Hget Hup) as Hc.
  unfold isAdmin in Hc. rewrite Hr in Hc. cbn in Hc. lia.
Qed.


(** The keys of [professors] pass unchanged through an update. *)
Lemma updateProfessor_ids (st st' : Store) (id : Z) (email name newRole status : option string) :
  updateProfessor st id email name newRole status = Some st' ->
  map p_id (professors st') = map p_id (professors st).
Proof.
  unfold updateProfessor. destruct email as [email|].
  - destruct (existsb _ _); [discriminate |]. intros H. injection H as <-.
    cbn [professors]. rewrite map_map. apply map_ext. intros q.
    now destruct (p_id q =? id).
  - destruct (existsb _ _); [discriminate |]. intros H. now injection H as <-.
Qed.

Lemma removeRow_NoDup (l : list Professor) (id : Z) :
  NoDup (map p_id l) -> NoDup (map p_id (removeRow id l)).
Proof.
  unfold removeRow. induction l as [|a l IH]; intros Hnd; [assumption |].
  apply NoDup_cons_In in Hnd as [Ha Hl]. cbn [List.filter].
  destruct (negb (p_id a =? id)); [| now apply IH].
  cbn [map]. apply NoDup_cons. split; [| now apply IH].
  intros Hin. apply Ha. apply list_elem_of_In in Hin.
  apply in_map_iff in Hin as [q [Hq Hin]]. apply filter_In in Hin as [Hin _].
  rewrite <- Hq. now apply in_map.
Qed.

Lemma nextId_fresh (st : Store) : ~ In (nextId st) (map p_id (professors st)).
Proof.
  intros Hin.
  pose proof (fold_max_bound (map p_id (professors st)) (professors_seq st) (nextId st)
                (or_intror Hin)) as H.
  unfold nextId in H. lia.
Qed.

Section Sequences.
Context {B : Bcrypt}.

Lemma manage_primaryKey (st : Store) (s : ReqSession) (r : Request) :
  primaryKey st -> primaryKey (fst (manage st s r)).
Proof.
  unfold primaryKey, manage. intros Hnd.
  destruct (adminRoute s "/api/professors" Next); try exact Hnd.
  destruct r as [id email name newRole status | id | id | id].
  - unfold putProfessor. destruct (getProfessor st id); [| exact Hnd].
    destruct (_ && _); [exact Hnd |].
    destruct (updateProfessor _ _ _ _ _ _) as [st'|] eqn:Hup; [| exact Hnd].
    cbn [fst]. now rewrite (updateProfessor_ids _ _ _ _ _ _ _ Hup).
  - unfold deleteProfessorHandler. destruct (getProfessor st id) as [p|]; [| exact Hnd].
    destruct (_ && _); [exact Hnd |].
    destruct (match professorId s with Some i => p_id p =? i | None => false end);
      [exact Hnd |].
    cbn [fst deleteProfessor professors]. now apply removeRow_NoDup.
  - unfold approve. destruct (getProfessor st id); [| exact Hnd].
    destruct (negb _); [exact Hnd |].
    destruct (updateProfessor _ _ _ _ _ _) as [st'|] eqn:Hup; [| exact Hnd].
    cbn [fst]. now rewrite (updateProfessor_ids _ _ _ _ _ _ _ Hup).
  - unfold promote. destruct (getProfessor st id); [| exact Hnd].
    destruct (equals _ _); [exact Hnd |].
    destruct (updateProfessor _ _ _ _ _ _) as [st'|] eqn:Hup; [| exact Hnd].
    cbn [fst]. now rewrite (updateProfessor_ids _ _ _ _ _ _ _ Hup).
Qed.

Lemma manage_admins (st : Store) (s : ReqSession) (r : Request) :
  primaryKey st -> (1 <= length (admins st))%nat ->
  (1 <= length (admins (fst (manage st s r))))%nat.
Proof.
  unfold primaryKey, manage. intros Hnd H1.
  destruct (adminRoute s "/api/professors" Next); try exact H1.
  destruct r as [id email name newRole status | id | id | id].
  - now apply putProfessor_admins.
  - now apply deleteProfessor_admins.
  - now apply approve_admins.
  - now apply promote_admins.
Qed.

(** What a signup leaves in [professors]: the rows it found, and at most one
    more, which is no administrator and bears a fresh key. *)
Lemma signup_rows (st : Store) (email password name : option string) :
  professors (fst (signup st email password name)) = professors st \/
  exists p, professors (fst (signup st email password name)) = professors st ++ [p] /\
            p_id p = nextId st /\ p_role p = Some "professor".
Proof.
  unfold signup.
  destruct (_ || _); [now left |].
  destruct (_ <? _)%nat; [now left |].
  destruct (getProfessorByEmail st (default "" email)) eqn:Hg; [now left |].
  unfold createProfessor. rewrite Hg. cbn [fst professors].
  right. eexists. split; [reflexivity |]. now split.
Qed.

Lemma execute_invariant (st : Store) (op : Operation) :
  primaryKey st -> (1 <= length (admins st))%nat ->
  primaryKey (execute st op) /\ (1 <= length (admins (execute st op)))%nat.
Proof.
  intros Hnd H1. destruct op as [s r | email password name]; cbn [execute].
  - split; [now apply manage_primaryKey | now apply manage_admins].
  - unfold primaryKey, admins in *.
    destruct (signup_rows st email password name) as [-> | [p [-> [Hid Hrole]]]];
      [now split |].
    split.
    + rewrite map_app. cbn [map]. apply NoDup_app. split; [assumption |]. split.
      * intros x Hx Hx'. apply list_elem_of_singleton in Hx'. subst x.
        rewrite Hid in Hx. apply list_elem_of_In in Hx. now apply (nextId_fresh st).
      * apply NoDup_singleton.
    + rewrite List.filter_app, length_app. lia.
Qed.

End Sequences.

(** X4.  Whatever sequence of management requests and signups is served, from
    whatever sessions, a store that has an administrator keeps one: the last
    row whose role is admin is neither demoted nor deleted. *)
Theorem last_administrator_kept {B : Bcrypt} (st : Store) (ops : list Operation) :
  primaryKey st -> (1 <= length (admins st))%nat ->
  primaryKey (serve st ops) /\ (1 <= length (admins (serve st ops)))%nat.
Proof.
  unfold serve. revert st. induction ops as [|op ops IH]; intros st Hnd H1; cbn [fold_left].
  - now split.
  - destruct (execute_invariant st op Hnd H1) as [Hnd' H1']. now apply IH.
Qed.

Lemma last_administrator_kept_witness :
  Nat.le 1%nat
    (length (admins (@serve plain (@seeded plain "false")
        [ Signup (Some "eve@example.org") (Some "secret1") (Some "Eve");
          Manage {| professorId := Some 1; professorEmail := None; professorName := None;
                    role := Some "admin" |}
                 (Put 1 (Some "demo@example.com") None (Some "professor") (Some "active"));
          Manage {| professorId := Some 1; professorEmail := None; professorName := None;
                    role := Some "admin" |}
                 (Delete 1) ]))).
Proof.
  apply (@last_administrator_kept plain (@seeded plain "false")).
  - unfold primaryKey. cbn. apply NoDup_singleton.
  - cbn. lia.
Defined.


(** X5.  A request of professor management reaches its handler only from the
    session of an authenticated administrator: from any other session the
    store is left as it was, and the answer is the 401 or the 403 of the
    middleware. *)
Theorem management_needs_admin_session (st : Store) (s : ReqSession) (r : Request) :
  isAdminSession s = false ->
  fst (manage st s r) = st /\
  snd (manage st s r) = (if authenticated s then Error 403 "Admin access required"
                         else Error 401 "Unauthorized").
Proof.
  unfold isAdminSession, manage, adminRoute, requireAuth, requireAdmin.
  destruct (authenticated s); cbn [andb]; [| intros _; now split].
  intros ->. now split.
Qed.

Lemma management_needs_admin_session_witness :
  fst (manage (@seeded plain "false") anonymous (Delete 1)) = @seeded plain "false" /\
  snd (manage (@seeded plain "false") anonymous (Delete 1)) = Error 401 "Unauthorized".
Proof.
  apply (management_needs_admin_session (@seeded plain "false") anonymous (Delete 1)).
  reflexivity.
Defined.

Section Login.
Context {B : Bcrypt}.

(** X6.  A login either leaves the session as it was and answers an error, or
    installs the identity of a stored professor whose email was given, whose
    hash the password matches, and whose status is neither [waitlist] nor
    [disabled]. *)
Theorem login_sound (st : Store) (s : ReqSession) (email password : option string) :
  (fst (login st s email password) = s /\
   exists status message, snd (login st s email password) = Error status message) \/
  (exists p pw,
      In p (professors st) /\ email = Some (p_email p) /\ password = Some pw /\
      compareSync pw (p_password_hash p) = true /\
      equals (p_status p) "waitlist" = false /\ equals (p_status p) "disabled" = false /\
      login st s email password =
      ({| professorId := Some (p_id p); professorEmail := Some (p_email p);
          professorName := p_name p; role := p_role p |},
       LoggedIn (p_id p) (p_email p) (p_name p) (p_role p))).
Proof.
  unfold login.
  destruct email as [email|]; cbn [missing orb]; [| left; split; eauto].
  destruct (String.eqb email ""); cbn [orb]; [left; split; eauto |].
  destruct password as [pw|]; cbn [missing orb]; [| left; split; eauto].
  destruct (String.eqb pw ""); cbn [orb]; [left; split; eauto |].
  change (default "" (Some email)) with email. change (default "" (Some pw)) with pw.
  unfold verifyProfessorPassword, getProfessorByEmail.
  destruct (List.find _ (professors st)) as [p|] eqn:Hf; [| left; split; eauto].
  apply find_some in Hf as [Hin He]. apply String.eqb_eq in He.
  destruct (compareSync pw (p_password_hash p)) eqn:Hc; [| left; split; eauto].
  destruct (equals (p_status p) "waitlist") eqn:Hw; [left; split; eauto |].
  destruct (equals (p_status p) "disabled") eqn:Hd; [left; split; eauto |].
  right. exists p, pw. subst email.
  split; [assumption |]. do 5 (split; [reflexivity || assumption |]). reflexivity.
Qed.




End Login.



End AdminFacts.

(* ===================================================================== *)
(** ** Facts about the gateway                                            *)
(* ===================================================================== *)

Module GatewayFacts.
Import Gateway ListFacts.

Section Runs.
Context {RT : Runtime} {CFG : Config}.

Lemma run_bind {R S : Type} (t : Task R) (f : R -> Task S) (w : World) :
  run (bind t f) w = let '(w', r) := run t w in run (f r) w'.
Proof.
  revert w. induction t as [r | e k IH]; intros w; cbn [bind run].
  - reflexivity.
  - destruct (handle e w) as [w' a]. apply IH.
Qed.

Lemma events_app (w w' : World) (evs : list Eff) :
  trace w' = trace w ++ evs -> events w w' = evs.
Proof. intros H. unfold events. rewrite H. apply drop_app_length. Qed.

(** What an effect other than a runtime call leaves alone. *)
Lemma handle_frame (e : Eff) (w : World) :
  let w' := fst (handle e w) in
  clock w' = clock w /\ trace w' = trace w ++ [e] /\
  (isDockerCall e = false -> runtime w' = runtime w).
Proof.
  destruct w as [d ss fs ds c rt tr].
  destruct e; try (cbn; repeat split; reflexivity).
  cbn [handle perform]. unfold record. cbn [runtime].
  destruct (rtExec c0 rt) as [r a]. cbn. repeat split. discriminate.
Qed.

(** The synchronisation of a workspace reads the assignments of the course
    and writes files: it leaves the database, the registry, the runtime and
    the clock alone, and answers the number of assignments. *)
Lemma run_syncEach {R : Type} (dir : string) (l : list Assignment) (k : Task R) (w : World) :
  exists fs' ds' evs,
    run (syncEach dir l k) w =
    run k {| db := db w; sessions := sessions w; files := fs'; dirs := ds';
             clock := clock w; runtime := runtime w; trace := trace w ++ evs |} /\
    Forall (fun e => isDockerCall e = false) evs.
Proof.
  revert w. induction l as [|a l IH]; intros w; cbn [syncEach].
  - exists (files w), (dirs w), []. rewrite app_nil_r. destruct w. split; [reflexivity | constructor].
  - destruct w as [d ss fs ds c rt tr]. wstep.
    edestruct IH as (fs' & ds' & evs & Hrun & Hev). rewrite Hrun. cbn [db sessions files dirs clock runtime trace].
    exists fs', ds'. eexists (_ :: _ :: evs). split.
    + rewrite <- !app_assoc. reflexivity.
    + repeat constructor. exact Hev.
Qed.

Lemma run_sync (courseId : Z) (workspacePath : string) (w : World) :
  exists fs' ds' evs,
    run (syncAssignmentsToWorkspace courseId workspacePath) w =
    ({| db := db w; sessions := sessions w; files := fs'; dirs := ds';
        clock := clock w; runtime := runtime w; trace := trace w ++ evs |},
     length (getAssignmentsByCourse (db w) courseId)) /\
    Forall (fun e => isDockerCall e = false) evs.
Proof.
  destruct w as [d ss fs ds c rt tr]. unfold syncAssignmentsToWorkspace. wstep.
  edestruct (run_syncEach (R := nat)) as (fs' & ds' & evs & Hrun & Hev). rewrite Hrun.
  cbn [run db sessions files dirs clock runtime trace].
  exists fs', ds'. eexists (_ :: _ :: evs). split.
  - rewrite <- !app_assoc. reflexivity.
  - repeat constructor. exact Hev.
Qed.


(** **** Regular access *)

Lemma run_accessRegister (e : Enrollment) (container : string) (w : World) :
  run (accessRegister e (getContainerName e) container) w =
  ({| db := db w;
      sessions := <[getContainerName e := registered e container (clock w)]> (sessions w);
      files := files w; dirs := dirs w; clock := clock w; runtime := runtime w;
      trace := trace w ++ [Now; SessionsSet (getContainerName e)
                                  (registered e container (clock w))] |},
   redirected e).
Proof.
  destruct w as [d ss fs ds c rt tr].
  unfold accessRegister. wstep. unfold registered, redirected.
  now rewrite <- app_assoc.
Qed.

(** The start of a container that needs it: the workspace is synchronised,
    then the runtime is asked to start; only when it does is the enrollment
    marked running and the session registered. *)
Lemma run_accessStart (e : Enrollment) (container : string) (w : World) :
  exists fs' ds' evs,
    Forall (fun ev => isDockerCall ev = false) evs /\
    run (accessStart e (getContainerName e) container true) w =
    match rtExec (Start container) (runtime w) with
    | (rt', Ok _) =>
        ({| db := updateEnrollmentContainer (db w) (e_id e) (Some container) "running";
            sessions := <[getContainerName e := registered e container (clock w)]> (sessions w);
            files := fs'; dirs := ds'; clock := clock w; runtime := rt';
            trace := trace w ++ evs ++
                     [ Docker (Start container);
                       UpdateEnrollmentContainer (e_id e) (Some container) "running";
                       Now;
                       SessionsSet (getContainerName e)
                         (registered e container (clock w)) ] |},
         redirected e)
    | (rt', Rejected _) =>
        ({| db := db w; sessions := sessions w; files := fs'; dirs := ds';
            clock := clock w; runtime := rt';
            trace := trace w ++ evs ++ [Docker (Start container)] |},
         failedSession)
    end.
Proof.
  destruct w as [d ss fs ds c rt tr]. unfold accessStart. wstep. rewrite run_bind.
  edestruct run_sync as (fs' & ds' & evs & Hrun & Hev). rewrite Hrun. clear Hrun.
  cbn [db sessions files dirs clock runtime trace]. wstep.
  exists fs', ds', (EnsureDir (workspaceOf DATA_DIR e) :: evs).
  split; [constructor; [reflexivity | exact Hev] |].
  destruct (rtExec (Start container) rt) as [rt' [[] | code]]; wstep.
  - rewrite run_accessRegister. cbn [db sessions files dirs clock runtime trace].
    f_equal. f_equal. rewrite <- !app_assoc. reflexivity.
  - f_equal. f_equal. rewrite <- !app_assoc. reflexivity.
Qed.

(** The whole of an access with a known token, by the answers of the
    runtime. *)
Lemma run_access (token : string) (e : Enrollment) (w : World) :
  getEnrollmentByToken (db w) token = Some e ->
  let name := getContainerName e in
  let w1 rt1 evs :=
    {| db := db w; sessions := sessions w; files := files w; dirs := dirs w;
       clock := clock w; runtime := rt1;
       trace := trace w ++ GetEnrollmentByToken token :: Docker (Inspect name) :: evs |} in
  run (access token) w =
  match rtExec (Inspect name) (runtime w) with
  | (rt1, Ok true) => run (accessRegister e name name) (w1 rt1 [])
  | (rt1, Ok false) => run (accessStart e name name true) (w1 rt1 [])
  | (rt1, Rejected _) =>
      match rtExec (CreateContainer (accessOptions e name)) rt1 with
      | (rt2, Ok id) =>
          run (accessStart e name id true)
            {| db := updateEnrollmentContainer (db w) (e_id e) (Some id) "created";
               sessions := sessions w; files := files w;
               dirs := {[workspaceOf DATA_DIR e]} ∪ dirs w;
               clock := clock w; runtime := rt2;
               trace := trace w ++
                        [ GetEnrollmentByToken token; Docker (Inspect name);
                          EnsureDir (workspaceOf DATA_DIR e);
                          Docker (CreateContainer (accessOptions e name));
                          UpdateEnrollmentContainer (e_id e) (Some id) "created" ] |}
      | (rt2, Rejected _) =>
          ({| db := db w; sessions := sessions w; files := files w;
              dirs := {[workspaceOf DATA_DIR e]} ∪ dirs w;
              clock := clock w; runtime := rt2;
              trace := trace w ++
                       [ GetEnrollmentByToken token; Docker (Inspect name);
                         EnsureDir (workspaceOf DATA_DIR e);
                         Docker (CreateContainer (accessOptions e name)) ] |},
           failedSession)
      end
  end.
Proof.
  intros He name w1. subst name w1. destruct w as [d ss fs ds c rt tr]. cbn [db] in He.
  cbn [db sessions files dirs clock runtime trace]. unfold access. wstep. rewrite He. wstep.
  destruct (rtExec _ rt) as [rt1 [[] | code]]; wstep; cbn [negb].
  - now rewrite <- app_assoc.
  - now rewrite <- app_assoc.
  - destruct (rtExec _ rt1) as [rt2 [id | code2]]; wstep; now rewrite <- !app_assoc.
Qed.


Lemma dockerCalls_app (l1 l2 : list Eff) :
  dockerCalls (l1 ++ l2) = dockerCalls l1 ++ dockerCalls l2.
Proof. apply List.filter_app. Qed.

Lemma dockerCalls_none (evs : list Eff) :
  Forall (fun ev => isDockerCall ev = false) evs -> dockerCalls evs = [].
Proof.
  induction 1 as [|ev evs Hev _ IH]; [reflexivity |].
  unfold dockerCalls in *. cbn [List.filter]. now rewrite Hev.
Qed.

(** X8.  An access whose token is valid and whose container the runtime reports
    as running asks the runtime for that inspection and nothing else,
    leaves the database as it was, records the session under the container
    name and redirects with that name as session key: the key every
    redirecting access for the same student and course carries. *)
Theorem access_running_container (w : World) (token : string) (e : Enrollment)
        (rt' : RtState) :
  getEnrollmentByToken (db w) token = Some e ->
  rtExec (Inspect (getContainerName e)) (runtime w) = (rt', Ok true) ->
  let w' := fst (run (access token) w) in
  snd (run (access token) w) = redirected e /\
  dockerCalls (events w w') = [Docker (Inspect (getContainerName e))] /\
  runtime w' = rt' /\
  db w' = db w /\
  sessions w' = <[getContainerName e := registered e (getContainerName e) (clock w)]>
                  (sessions w).
Proof.
  intros He Hi w'. subst w'. rewrite (run_access token e w He), Hi, run_accessRegister.
  cbn [fst snd db sessions runtime clock trace].
  split; [reflexivity |]. split; [| now repeat split].
  erewrite events_app; [| cbn [trace]; rewrite <- ?app_assoc; reflexivity].
  reflexivity.
Qed.

(** An access whose container exists but is not running starts that
    container by its name and creates none; once the runtime has started it
    the enrollment is marked running and the session is registered. *)
Theorem access_restarts_stopped_container (w : World) (token : string) (e : Enrollment)
        (rt1 rt2 : RtState) :
  getEnrollmentByToken (db w) token = Some e ->
  rtExec (Inspect (getContainerName e)) (runtime w) = (rt1, Ok false) ->
  rtExec (Start (getContainerName e)) rt1 = (rt2, Ok tt) ->
  let name := getContainerName e in
  let w' := fst (run (access token) w) in
  snd (run (access token) w) = redirected e /\
  dockerCalls (events w w') = [Docker (Inspect name); Docker (Start name)] /\
  runtime w' = rt2 /\
  db w' = updateEnrollmentContainer (db w) (e_id e) (Some name) "running" /\
  sessions w' = <[name := registered e name (clock w)]> (sessions w).
Proof.
  intros He Hi Hs name w'. subst name w'. rewrite (run_access token e w He), Hi.
  edestruct run_accessStart as (fs' & ds' & evs & Hev & Hrun). rewrite Hrun. clear Hrun.
  cbn [runtime]. rewrite Hs. cbn [fst snd db sessions runtime clock trace].
  split; [reflexivity |]. split; [| now repeat split].
  erewrite events_app; [| cbn [trace]; rewrite <- ?app_assoc; reflexivity].
  change (?a :: ?b :: ?l) with ([a; b] ++ l).
  rewrite !dockerCalls_app, (dockerCalls_none evs Hev). reflexivity.
Qed.

(** X9.  A first access, for which the runtime knows no container of the name,
    creates one under the deterministic name and starts it by the id the
    runtime gave; the enrollment then holds that id and is marked running,
    and the session is registered with that id under the name. *)
Theorem access_creates_container (w : World) (token : string) (e : Enrollment)
        (rt1 rt2 rt3 : RtState) (code : Z) (id : string) :
  getEnrollmentByToken (db w) token = Some e ->
  rtExec (Inspect (getContainerName e)) (runtime w) = (rt1, Rejected code) ->
  rtExec (CreateContainer (accessOptions e (getContainerName e))) rt1 = (rt2, Ok id) ->
  rtExec (Start id) rt2 = (rt3, Ok tt) ->
  let name := getContainerName e in
  let w' := fst (run (access token) w) in
  snd (run (access token) w) = redirected e /\
  dockerCalls (events w w')
    = [ Docker (Inspect name); Docker (CreateContainer (accessOptions e name));
        Docker (Start id) ] /\
  runtime w' = rt3 /\
  db w' = updateEnrollmentContainer
            (updateEnrollmentContainer (db w) (e_id e) (Some id) "created")
            (e_id e) (Some id) "running" /\
  sessions w' = <[name := registered e id (clock w)]> (sessions w).
Proof.
  intros He Hi Hc Hs name w'. subst name w'. rewrite (run_access token e w He), Hi, Hc.
  edestruct run_accessStart as (fs' & ds' & evs & Hev & Hrun). rewrite Hrun. clear Hrun.
  cbn [runtime]. rewrite Hs. cbn [fst snd db sessions runtime clock trace].
  split; [reflexivity |]. split; [| now repeat split].
  erewrite events_app; [| cbn [trace]; rewrite <- ?app_assoc; reflexivity].
  change (?a :: ?b :: ?c :: ?d :: ?f :: nil) with ([a; b; c; d; f] ++ nil).
  rewrite !dockerCalls_app, (dockerCalls_none evs Hev). reflexivity.
Qed.

(** X10.  When the runtime rejects the create of a first access, with a name
    conflict or otherwise, nothing catches the rejection short of the
    handler's [catch]: the access answers the failure of status 500 without
    asking for a start, and neither the enrollment nor the registry
    changes. *)
Theorem access_create_rejected (w : World) (token : string) (e : Enrollment)
        (rt1 rt2 : RtState) (code1 code2 : Z) :
  getEnrollmentByToken (db w) token = Some e ->
  rtExec (Inspect (getContainerName e)) (runtime w) = (rt1, Rejected code1) ->
  rtExec (CreateContainer (accessOptions e (getContainerName e))) rt1
    = (rt2, Rejected code2) ->
  let name := getContainerName e in
  let w' := fst (run (access token) w) in
  snd (run (access token) w) = failedSession /\
  dockerCalls (events w w')
    = [Docker (Inspect name); Docker (CreateContainer (accessOptions e name))] /\
  runtime w' = rt2 /\ db w' = db w /\ sessions w' = sessions w.
Proof.
  intros He Hi Hc name w'. subst name w'. rewrite (run_access token e w He), Hi, Hc.
  cbn [fst snd db sessions runtime clock trace].
  split; [reflexivity |]. split; [| now repeat split].
  erewrite events_app; [| cbn [trace]; rewrite <- ?app_assoc; reflexivity]. reflexivity.
Qed.

Lemma access_cases (w : World) (token : string) :
  let w' := fst (run (access token) w) in
  let r := snd (run (access token) w) in
  (getEnrollmentByToken (db w) token = None /\
   r = Send 404 "Invalid or expired access link" /\
   db w' = db w /\ sessions w' = sessions w /\ runtime w' = runtime w /\
   events w w' = [GetEnrollmentByToken token]) \/
  (exists e, getEnrollmentByToken (db w) token = Some e /\
             r = failedSession /\ sessions w' = sessions w) \/
  (exists e container,
      getEnrollmentByToken (db w) token = Some e /\
      r = redirected e /\
      sessions w' = <[getContainerName e := registered e container (clock w)]> (sessions w)).
Proof.
  intros w' r. subst w' r.
  destruct (getEnrollmentByToken (db w) token) as [e|] eqn:He.
  - right. rewrite (run_access token e w He).
    destruct (rtExec (Inspect _) (runtime w)) as [rt1 [[] | code]].
    + right. exists e, (getContainerName e). rewrite run_accessRegister. now repeat split.
    + edestruct run_accessStart as (fs' & ds' & evs & Hev & Hrun). rewrite Hrun. clear Hrun.
      cbn [runtime].
      destruct (rtExec (Start _) rt1) as [rt2 [[] | code]].
      * right. exists e, (getContainerName e). now repeat split.
      * left. exists e. now repeat split.
    + destruct (rtExec (CreateContainer _) rt1) as [rt2 [id | code2]].
      * edestruct run_accessStart as (fs' & ds' & evs & Hev & Hrun). rewrite Hrun. clear Hrun.
        cbn [runtime].
        destruct (rtExec (Start _) rt2) as [rt3 [[] | code3]].
        -- right. exists e, id. now repeat split.
        -- left. exists e. now repeat split.
      * left. exists e. now repeat split.
  - left. destruct w as [d ss fs ds c rt tr]. cbn [db] in He.
    unfold access. wstep. rewrite He. wstep.
    repeat split. apply events_app. reflexivity.
Qed.

(** X11.  Whatever the runtime answers, an access ends in one of three ways: the
    404 of an unknown token, with nothing done; the failure of status 500,
    with the registry as it was; or the redirect carrying the container name
    of the token's enrollment, with a session registered under that name. *)
Theorem access_outcomes (w : World) (token : string) :
  let w' := fst (run (access token) w) in
  let r := snd (run (access token) w) in
  (getEnrollmentByToken (db w) token = None /\
   r = Send 404 "Invalid or expired access link" /\
   db w' = db w /\ sessions w' = sessions w /\ runtime w' = runtime w /\
   events w w' = [GetEnrollmentByToken token]) \/
  (exists e, getEnrollmentByToken (db w) token = Some e /\
             r = failedSession /\ sessions w' = sessions w) \/
  (exists e container,
      getEnrollmentByToken (db w) token = Some e /\
      r = redirected e /\
      sessions w' = <[getContainerName e := registered e container (clock w)]> (sessions w)).
Proof. exact (access_cases w token). Qed.


End Runs.

Lemma access_running_container_witness :
  let w := Scenario.worldWith [Scenario.desktop "lms-3-7" true] [] 1000 in
  snd (run (@access Scenario.defaults "tok-A") w)
    = Redirect "/student.html" [("session", "lms-3-7"); ("course", "Algorithms")] /\
  dockerCalls (events w (fst (run (@access Scenario.defaults "tok-A") w)))
    = [Docker (Inspect "lms-3-7")].
Proof.
  intros w.
  destruct (@access_running_container Engine.engine Scenario.defaults w "tok-A"
              Scenario.enrollmentA (runtime w) eq_refl eq_refl) as (H1 & H2 & _).
  split; [exact H1 | exact H2].
Defined.

Lemma access_restarts_stopped_container_witness :
  let w := Scenario.worldWith [Scenario.desktop "lms-3-7" false] [] 1000 in
  dockerCalls (events w (fst (run (@access Scenario.defaults "tok-A") w)))
    = [Docker (Inspect "lms-3-7"); Docker (Start "lms-3-7")].
Proof.
  intros w.
  destruct (@access_restarts_stopped_container Engine.engine Scenario.defaults w "tok-A"
              Scenario.enrollmentA (runtime w)
              {| Engine.containers := [Scenario.desktop "lms-3-7" true];
                 Engine.created_count := 1 |} eq_refl eq_refl eq_refl) as (_ & H2 & _).
  exact H2.
Defined.

Lemma access_creates_container_witness :
  let w := Scenario.world [] 1000 in
  snd (run (@access Scenario.defaults "tok-A") w)
    = Redirect "/student.html" [("session", "lms-3-7"); ("course", "Algorithms")] /\
  sessions (fst (run (@access Scenario.defaults "tok-A") w)) !! "lms-3-7"
    = Some (registered Scenario.enrollmentA "container-1" 1000).
Proof.
  intros w.
  destruct (@access_creates_container Engine.engine Scenario.defaults w "tok-A"
              Scenario.enrollmentA (runtime w)
              {| Engine.containers := [Scenario.desktop "lms-3-7" false];
                 Engine.created_count := 1 |}
              {| Engine.containers := [Scenario.desktop "lms-3-7" true];
                 Engine.created_count := 1 |}
              404 "container-1" eq_refl eq_refl eq_refl eq_refl) as (H1 & _ & _ & _ & H5).
  split; [exact H1 |]. rewrite H5. apply lookup_insert_eq.
Defined.

Lemma access_create_rejected_witness :
  let w := Scenario.contendedWorld [] 1000 in
  snd (@run Scenario.contended _ (@access Scenario.defaults "tok-A") w) = failedSession /\
  sessions (fst (@run Scenario.contended _ (@access Scenario.defaults "tok-A") w)) = ∅.
Proof.
  intros w.
  destruct (@access_create_rejected Scenario.contended Scenario.defaults w "tok-A"
              Scenario.enrollmentA tt tt 404 409 eq_refl eq_refl eq_refl)
    as (H1 & _ & _ & _ & H5).
  split; [exact H1 | exact H5].
Defined.


(** **** Exam access *)

Section Exam.
Context {RT : Runtime} {CFG : Config}.

Lemma nextRowid_fresh (d : Db) (s : ExamSession) :
  In s (exam_sessions d) -> es_id s < nextRowid d.
Proof.
  intros Hin. unfold nextRowid.
  assert (es_id s <= fold_right Z.max (exam_sessions_seq d) (map es_id (exam_sessions d))).
  { apply fold_max_bound. right. now apply in_map. }
  lia.
Qed.

Lemma find_fresh (d : Db) :
  List.find (fun s => es_id s =? nextRowid d) (exam_sessions d) = None.
Proof.
  destruct (List.find _ _) as [s|] eqn:Hf; [| reflexivity].
  apply find_some in Hf as [Hin Heq]. apply Z.eqb_eq in Heq.
  pose proof (nextRowid_fresh d s Hin). lia.
Qed.

Lemma getExamSession_created (d : Db) (now a st : Z) (p : string) :
  getExamSession (inserted d now a st p) (nextRowid d) = Some (newExamSession d now a st p).
Proof.
  unfold getExamSession, inserted. cbn [exam_sessions].
  rewrite find_app_none by apply find_fresh.
  cbn [List.find newExamSession es_id]. now rewrite Z.eqb_refl.
Qed.


(** From the inspection on, an exam access that holds a session row ends in
    the failure of status 500, with the registry as it was, or in the
    redirect to the exam page, with the session registered; it writes to the
    database at most the container of that row, and only after a create. *)
Lemma run_examContainer (e : Enrollment) (exam : Assignment) (aid : Z)
      (s : ExamSession) (cn path : string) (w w' : World) (r : Response) :
  run (examContainer e exam aid (Some s) cn path) w = (w', r) ->
  clock w' = clock w /\
  ((r = failedExam /\ sessions w' = sessions w) \/
   (exists container,
       r = examRedirect exam cn /\
       sessions w' = <[cn := examRegistered exam s container (clock w)]> (sessions w))) /\
  (db w' = db w \/ exists id, db w' = updateExamSessionContainer (db w) (es_id s) id) /\
  exists evs, trace w' = trace w ++ Docker (Inspect cn) :: evs.
Proof.
  destruct w as [d ss fs ds c rt tr]. unfold examContainer. wstep.
  destruct (rtExec (Inspect cn) rt) as [rt1 [running | code]]; wstep.
  - unfold examStart, examRegister. destruct running; cbn [negb]; wstep.
    + intros [= <- <-]. cbn [db sessions clock trace].
      split; [reflexivity |]. split; [right; exists cn; now split |].
      split; [now left |]. eexists. rewrite <- !app_assoc. reflexivity.
    + destruct (rtExec (Start cn) rt1) as [rt2 [[] | code]]; wstep;
        intros [= <- <-]; cbn [db sessions clock trace].
      * split; [reflexivity |]. split; [right; exists cn; now split |].
        split; [now left |]. eexists. rewrite <- !app_assoc. reflexivity.
      * split; [reflexivity |]. split; [left; now split |].
        split; [now left |]. eexists. rewrite <- !app_assoc. reflexivity.
  - destruct (rtExec (CreateContainer _) rt1) as [rt2 [id | code2]]; wstep.
    + unfold examStart, examRegister. wstep.
      destruct (rtExec (Start id) rt2) as [rt3 [[] | code3]]; wstep;
        intros [= <- <-]; cbn [db sessions clock trace].
      * split; [reflexivity |]. split; [right; exists id; now split |].
        split; [right; now exists id |]. eexists. rewrite <- !app_assoc. reflexivity.
      * split; [reflexivity |]. split; [left; now split |].
        split; [right; now exists id |]. eexists. rewrite <- !app_assoc. reflexivity.
    + intros [= <- <-]. cbn [db sessions clock trace].
      split; [reflexivity |]. split; [left; now split |].
      split; [now left |]. eexists. rewrite <- !app_assoc. reflexivity.
Qed.

(** An exam access past the checks on token, exam and course, inside the
    time window: the refusal of a completed session, or the inspection and
    what follows it on the session found or on the one just inserted. *)
Lemma run_examAccess (aid : Z) (token : string) (e : Enrollment) (exam : Assignment)
      (w : World) :
  getEnrollmentByToken (db w) token = Some e ->
  getExamAssignment (db w) aid = Some exam ->
  a_course_id exam = e_course_id e ->
  dateAfter (a_start_time exam) (clock w) = false ->
  dateBefore (a_end_time exam) (clock w) = false ->
  let st := e_student_id e in
  let cn := examContainerName aid st in
  let path := examWorkPathOf DATA_DIR aid st in
  let pre := [ GetEnrollmentByToken token; GetExamAssignment aid; Now;
               GetExamSessionByStudentAndAssignment st aid ] in
  run (examAccess aid token) w =
  match getExamSessionByStudentAndAssignment (db w) st aid with
  | Some s =>
      if Status_eqb (es_status s) completed
      then ({| db := db w; sessions := sessions w; files := files w; dirs := dirs w;
               clock := clock w; runtime := runtime w; trace := trace w ++ pre |},
            alreadySubmitted)
      else run (examContainer e exam aid (Some s) cn path)
             {| db := db w; sessions := sessions w; files := files w;
                dirs := {[path]} ∪ dirs w; clock := clock w; runtime := runtime w;
                trace := trace w ++ pre ++ [EnsureDir path] |}
  | None =>
      run (examContainer e exam aid (Some (newExamSession (db w) (clock w) aid st path)) cn path)
        {| db := inserted (db w) (clock w) aid st path; sessions := sessions w;
           files := files w; dirs := {[path]} ∪ dirs w; clock := clock w;
           runtime := runtime w;
           trace := trace w ++ pre ++
                    [ EnsureDir path; CreateExamSession aid st path;
                      GetExamSession (nextRowid (db w)) ] |}
  end.
Proof.
  intros He Hx Hc Ha Hb st cn path pre. subst st cn path pre.
  destruct w as [d ss fs ds c rt tr]. cbn [db clock] in *.
  cbn [db sessions files dirs clock runtime trace].
  unfold examAccess. wstep. rewrite He. wstep. rewrite Hx. wstep.
  rewrite Hc, Z.eqb_refl. cbn [negb]. wstep. rewrite Ha, Hb. wstep.
  destruct (getExamSessionByStudentAndAssignment d (e_student_id e) aid) as [s|] eqn:Hs.
  - cbn [isCompleted]. destruct (Status_eqb (es_status s) completed).
    + cbn [run]. unfold alreadySubmitted. now rewrite <- !app_assoc.
    + wstep. now rewrite <- !app_assoc.
  - cbn [isCompleted]. wstep. unfold createExamSession. wstep.
    change {| enrollments := enrollments d; assignments := assignments d;
              exam_sessions := _; exam_sessions_seq := nextRowid d |}
      with (inserted d c aid (e_student_id e)
              (examWorkPathOf DATA_DIR aid (e_student_id e))).
    rewrite getExamSession_created. now rewrite <- !app_assoc.
Qed.





(** X13.  The time window of an exam.  With a valid token for the course of the
    exam, the access is refused as not started exactly when the start time
    has a time value and the clock is strictly before it, and as ended
    exactly when it is not refused as not started, the end time has a time
    value and the clock is strictly after it.  A bound that is NULL, or
    whose text is no date, refuses nothing; neither does the clock being
    on a bound. *)
Theorem exam_window (aid : Z) (token : string) (e : Enrollment) (exam : Assignment)
        (w : World) :
  getEnrollmentByToken (db w) token = Some e ->
  getExamAssignment (db w) aid = Some exam ->
  a_course_id exam = e_course_id e ->
  let r := snd (run (examAccess aid token) w) in
  (r = notStarted (dateValue (a_start_time exam)) <->
   exists t1, dateValue (a_start_time exam) = Some t1 /\ clock w < t1) /\
  (r = ended <->
   (forall t1, dateValue (a_start_time exam) = Some t1 -> t1 <= clock w) /\
   exists t2, dateValue (a_end_time exam) = Some t2 /\ t2 < clock w).
Proof.
  intros He Hx Hc r. subst r.
  assert (Hafter : dateAfter (a_start_time exam) (clock w) = true <->
                   exists t1, dateValue (a_start_time exam) = Some t1 /\ clock w < t1).
  { unfold dateAfter, dateValue. destruct (a_start_time exam) as [[txt [ms|]]|]; cbn [timeValue].
    - rewrite Z.ltb_lt. split; [intros H; now exists ms | intros (t & [= <-] & H); exact H].
    - split; [discriminate | intros (t & [=] & _)].
    - split; [discriminate | intros (t & [=] & _)]. }
  assert (Hbefore : dateBefore (a_end_time exam) (clock w) = true <->
                    exists t2, dateValue (a_end_time exam) = Some t2 /\ t2 < clock w).
  { unfold dateBefore, dateValue. destruct (a_end_time exam) as [[txt [ms|]]|]; cbn [timeValue].
    - rewrite Z.ltb_lt. split; [intros H; now exists ms | intros (t & [= <-] & H); exact H].
    - split; [discriminate | intros (t & [=] & _)].
    - split; [discriminate | intros (t & [=] & _)]. }
  assert (Hopen : dateAfter (a_start_time exam) (clock w) = false <->
                  forall t1, dateValue (a_start_time exam) = Some t1 -> t1 <= clock w).
  { split.
    - intros Hf t1 Ht. destruct (Z.le_gt_cases t1 (clock w)) as [|Hlt]; [assumption |].
      assert (dateAfter (a_start_time exam) (clock w) = true) as Habs
          by (apply Hafter; now exists t1).
      rewrite Habs in Hf. discriminate.
    - intros Hall. apply not_true_is_false. intros Hd.
      apply Hafter in Hd as (t1 & Ht & Hlt). specialize (Hall t1 Ht). lia. }
  destruct (dateAfter (a_start_time exam) (clock w)) eqn:Ha.
  { assert (Hr : snd (run (examAccess aid token) w) = notStarted (dateValue (a_start_time exam))).
    { destruct w as [d ss fs ds c rt tr]. cbn [db clock] in He, Hx, Ha.
      unfold examAccess. wstep. rewrite He. wstep. rewrite Hx. wstep.
      rewrite Hc, Z.eqb_refl. cbn [negb]. wstep. rewrite Ha. reflexivity. }
    rewrite Hr. split.
    - split; [intros _; now apply Hafter | reflexivity].
    - split.
      + unfold notStarted, ended. cbn [String.append]. intros Hd. discriminate Hd.
      + intros [Hall _]. apply Hopen in Hall. discriminate. }
  destruct (dateBefore (a_end_time exam) (clock w)) eqn:Hb.
  { assert (Hr : snd (run (examAccess aid token) w) = ended).
    { destruct w as [d ss fs ds c rt tr]. cbn [db clock] in He, Hx, Ha, Hb.
      unfold examAccess. wstep. rewrite He. wstep. rewrite Hx. wstep.
      rewrite Hc, Z.eqb_refl. cbn [negb]. wstep. rewrite Ha, Hb. reflexivity. }
    rewrite Hr. split.
    - split.
      + unfold notStarted, ended. cbn [String.append]. intros Hd. discriminate Hd.
      + intros Hex. apply Hafter in Hex. discriminate.
    - split; [intros _; split; [now apply Hopen | now apply Hbefore] | reflexivity]. }
  assert (Hr : snd (run (examAccess aid token) w) = alreadySubmitted \/
               snd (run (examAccess aid token) w) = failedExam \/
               snd (run (examAccess aid token) w)
                 = examRedirect exam (examContainerName aid (e_student_id e))).
  { rewrite (run_examAccess aid token e exam w He Hx Hc Ha Hb).
    destruct (getExamSessionByStudentAndAssignment _ _ _) as [s|].
    - destruct (Status_eqb _ _); [now left |].
      destruct (run (examContainer _ _ _ _ _ _) _) as [w' r] eqn:Hrun.
      apply run_examContainer in Hrun as (_ & [[-> _] | (container & -> & _)] & _);
        right; [now left | now right].
    - destruct (run (examContainer _ _ _ _ _ _) _) as [w' r] eqn:Hrun.
      apply run_examContainer in Hrun as (_ & [[-> _] | (container & -> & _)] & _);
        right; [now left | now right]. }
  split.
  - split.
    + intros Heq. rewrite Heq in Hr. unfold notStarted, alreadySubmitted, failedExam, examRedirect in Hr.
      cbn [String.append] in Hr. destruct Hr as [Hr | [Hr | Hr]]; discriminate Hr.
    + intros Hex. apply Hafter in Hex. discriminate.
  - split.
    + intros Heq. rewrite Heq in Hr. unfold ended, alreadySubmitted, failedExam, examRedirect in Hr.
      destruct Hr as [Hr | [Hr | Hr]]; discriminate Hr.
    + intros [_ Hex]. apply Hbefore in Hex. discriminate.
Qed.

(** X14.  A completed session closes the exam for its student: inside the time
    window, an access for which the session row of the pair is completed is
    refused, and changes neither the database nor the registry nor the
    files, and asks nothing of the runtime. *)
Theorem exam_completed_refused (aid : Z) (token : string) (e : Enrollment) (exam : Assignment)
        (s : ExamSession) (w : World) :
  getEnrollmentByToken (db w) token = Some e ->
  getExamAssignment (db w) aid = Some exam ->
  a_course_id exam = e_course_id e ->
  dateAfter (a_start_time exam) (clock w) = false ->
  dateBefore (a_end_time exam) (clock w) = false ->
  getExamSessionByStudentAndAssignment (db w) (e_student_id e) aid = Some s ->
  es_status s = completed ->
  let w' := fst (run (examAccess aid token) w) in
  snd (run (examAccess aid token) w) = alreadySubmitted /\
  db w' = db w /\ sessions w' = sessions w /\ files w' = files w /\ dirs w' = dirs w /\
  runtime w' = runtime w /\ dockerCalls (events w w') = [].
Proof.
  intros He Hx Hc Ha Hb Hs Hst w'. subst w'.
  rewrite (run_examAccess aid token e exam w He Hx Hc Ha Hb), Hs, Hst.
  cbn [Status_eqb fst snd db sessions files dirs runtime]. repeat split.
  erewrite events_app; [| cbn [trace]; reflexivity]. reflexivity.
Qed.



End Exam.

Section Interleaving.
Context {RT : Runtime} {CFG : Config}.

Lemma examContainer_NoCreate (e : Enrollment) (exam : Assignment) (aid : Z)
      (s : option ExamSession) (cn path : string) :
  NoCreate (examContainer e exam aid s cn path).
Proof. unfold examContainer, examStart, examRegister. nocreate. Qed.

Lemma syncEach_NoCreate {R : Type} (dir : string) (l : list Assignment) (k : Task R) :
  NoCreate k -> NoCreate (syncEach dir l k).
Proof. intros Hk. induction l as [|a l IH]; cbn [syncEach]; [exact Hk | nocreate; exact IH]. Qed.

Lemma bind_NoCreate {R S : Type} (t : Task R) (f : R -> Task S) :
  NoCreate t -> (forall r, NoCreate (f r)) -> NoCreate (bind t f).
Proof.
  intros Ht Hf. induction Ht as [r | e k Hne _ IH]; cbn [bind]; [apply Hf |].
  apply NoCreate_Do; [exact Hne | exact IH].
Qed.

Lemma stopAndRemove_NoCreate {R : Type} (c : option string) (k : Task R) :
  NoCreate k -> NoCreate (stopAndRemove c k).
Proof.
  intros Hk. unfold stopAndRemove. destruct c as [c|]; [| exact Hk].
  destruct (String.eqb c ""); [exact Hk |]. nocreate; exact Hk.
Qed.

Lemma expire_NoCreate (now : Z) (l : list ActiveExamSession) (n : nat) :
  NoCreate (expire now l n).
Proof.
  revert n. induction l as [|s l IH]; intros n; cbn [expire]; [nocreate |].
  destruct (dateBefore _ _); [| apply IH].
  apply stopAndRemove_NoCreate. unfold markEnded. nocreate. apply IH.
Qed.

(** The handlers that end sessions and the regular access insert no exam
    session. *)
Lemma endExam_careful (id : Z) : careful (endExam id).
Proof.
  left. unfold endExam. nocreate.
  apply stopAndRemove_NoCreate. unfold markEnded. nocreate.
Qed.

Lemma checkExpired_careful : careful checkExpired.
Proof.
  left. unfold checkExpired. nocreate. apply bind_NoCreate; [apply expire_NoCreate |].
  intros r. nocreate.
Qed.

Lemma access_careful (token : string) : careful (access token).
Proof.
  left. unfold access, accessStart, accessRegister, syncAssignmentsToWorkspace. nocreate.
  all: cbn [negb]; nocreate.
  all: try (apply bind_NoCreate; [nocreate; apply syncEach_NoCreate; nocreate | intros r; nocreate]).
Qed.

Lemma map_pairOf_update (f : ExamSession -> ExamSession) (l : list ExamSession) :
  (forall s, pairOf (f s) = pairOf s) -> map pairOf (map f l) = map pairOf l.
Proof. intros Hf. rewrite map_map. apply map_ext. exact Hf. Qed.

(** An effect other than the insert keeps the pairs of the exam sessions. *)
Lemma handle_pairs (e : Eff) (w : World) :
  (forall a s p, e <> CreateExamSession a s p) ->
  map pairOf (exam_sessions (db (fst (handle e w)))) = map pairOf (exam_sessions (db w)).
Proof.
  intros Hne. destruct w as [d ss fs ds c rt tr].
  destruct e; try reflexivity.
  - now contradiction (Hne assignmentId studentId workVolumePath).
  - cbn. apply map_pairOf_update. intros s. now destruct (es_id s =? id).
  - cbn. apply map_pairOf_update. intros s. now destruct (es_id s =? id).
  - cbn [handle perform]. unfold record. cbn [runtime].
    destruct (rtExec c0 rt) as [r a]. reflexivity.
Qed.

Lemma runSync_NoCreate {R : Type} (t : Task R) (w : World) :
  NoCreate t ->
  NoCreate (snd (runSync t w)) /\
  map pairOf (exam_sessions (db (fst (runSync t w)))) = map pairOf (exam_sessions (db w)).
Proof.
  intros Ht. revert w. induction Ht as [r | e k Hne Hk IH]; intros w; cbn [runSync].
  - split; [apply NoCreate_Ret | reflexivity].
  - destruct (isAsync e).
    + split; [now apply NoCreate_Do | reflexivity].
    + pose proof (handle_pairs e w Hne) as Hp.
      destruct (handle e w) as [w' a]. cbn [fst] in Hp.
      destruct (IH a w') as [H1 H2]. split; [exact H1 | now rewrite H2].
Qed.

Lemma resume_NoCreate {R : Type} (t : Task R) (w : World) :
  NoCreate t ->
  NoCreate (snd (resume t w)) /\
  map pairOf (exam_sessions (db (fst (resume t w)))) = map pairOf (exam_sessions (db w)).
Proof.
  intros Ht. destruct Ht as [r | e k Hne Hk]; cbn [resume].
  - split; [apply NoCreate_Ret | reflexivity].
  - pose proof (handle_pairs e w Hne) as Hp.
    destruct (handle e w) as [w' a]. cbn [fst] in Hp.
    destruct (runSync_NoCreate (k a) w' (Hk a)) as [H1 H2]. split; [exact H1 | now rewrite H2].
Qed.

Lemma find_none_pair (d : Db) (st aid : Z) :
  getExamSessionByStudentAndAssignment d st aid = None ->
  ~ In (aid, st) (map pairOf (exam_sessions d)).
Proof.
  intros Hf Hin. apply in_map_iff in Hin as (s & Hp & Hin).
  apply (find_none _ _ Hf) in Hin. injection Hp as H1 H2.
  rewrite H1, H2, !Z.eqb_refl in Hin. discriminate.
Qed.

Lemma filter_all {A : Type} (l : list A) : List.filter (fun _ => true) l = l.
Proof. induction l as [|a l IH]; cbn [List.filter]; [reflexivity | now f_equal]. Qed.

Lemma uniquePairs_filter (Q : Status -> bool) (d : Db) :
  onePerPair d -> uniquePairs Q d.
Proof.
  unfold onePerPair, uniquePairs. rewrite filter_all.
  generalize (exam_sessions d). intros l H.
  induction l as [|s l IH]; cbn [List.filter map]; [constructor |].
  cbn [map] in H. apply NoDup_cons in H as [Hn Hd]. destruct (Q (es_status s)); [| now apply IH].
  cbn [map]. apply NoDup_cons. split; [| now apply IH].
  intros Hin. apply Hn. apply list_elem_of_In in Hin. apply list_elem_of_In.
  apply in_map_iff in Hin as (s' & Hp & Hin). apply in_map_iff. exists s'. split; [exact Hp |].
  now apply filter_In in Hin as [Hin _].
Qed.

Lemma onePerPair_pairs (d d' : Db) :
  map pairOf (exam_sessions d') = map pairOf (exam_sessions d) ->
  onePerPair d -> onePerPair d'.
Proof.
  unfold onePerPair, uniquePairs. intros Heq.
  rewrite !filter_all, Heq. trivial.
Qed.

Lemma onePerPair_inserted (d : Db) (now aid st : Z) (p : string) :
  getExamSessionByStudentAndAssignment d st aid = None ->
  onePerPair d -> onePerPair (inserted d now aid st p).
Proof.
  unfold onePerPair, uniquePairs. intros Hf.
  rewrite !filter_all. unfold inserted. cbn [exam_sessions]. rewrite map_app. cbn [map].
  intros Hd. apply NoDup_app. split; [exact Hd |]. split; [| apply NoDup_singleton].
  intros x Hx Hin. apply list_elem_of_singleton in Hin. subst x.
  apply list_elem_of_In in Hx. now apply (find_none_pair d st aid Hf).
Qed.

(** The first turn of an exam access runs from the lookup of the session to
    its insert with nothing scheduled in between: it keeps the session rows
    unique per pair, and what is left of the handler inserts none. *)
Lemma resume_examAccess (aid : Z) (token : string) (w : World) :
  onePerPair (db w) ->
  NoCreate (snd (resume (examAccess aid token) w)) /\
  onePerPair (db (fst (resume (examAccess aid token) w))).
Proof.
  intros Hinv. destruct w as [d ss fs ds c rt tr]. cbn [db] in Hinv.
  unfold examAccess. sstep.
  destruct (getEnrollmentByToken d token) as [e|]; sstep; [| split; [nocreate | exact Hinv]].
  destruct (getExamAssignment d aid) as [exam|]; sstep; [| split; [nocreate | exact Hinv]].
  destruct (negb _); sstep; [split; [nocreate | exact Hinv] |].
  destruct (dateAfter _ _); sstep; [split; [nocreate | exact Hinv] |].
  destruct (dateBefore _ _); sstep; [split; [nocreate | exact Hinv] |].
  destruct (getExamSessionByStudentAndAssignment d (e_student_id e) aid) as [s|] eqn:Hs.
  - cbn [isCompleted]. destruct (Status_eqb _ _); sstep; [split; [nocreate | exact Hinv] |].
    unfold examContainer at 1. sstep.
    split; [apply examContainer_NoCreate | exact Hinv].
  - cbn [isCompleted]. sstep. unfold createExamSession. sstep.
    unfold examContainer at 1. sstep.
    split; [apply examContainer_NoCreate |].
    apply (onePerPair_inserted d c aid (e_student_id e) _ Hs Hinv).
Qed.

Lemma resume_careful (t : Task Response) (w : World) :
  careful t -> onePerPair (db w) ->
  careful (snd (resume t w)) /\ onePerPair (db (fst (resume t w))).
Proof.
  intros [Ht | (aid & token & ->)] Hinv.
  - destruct (resume_NoCreate t w Ht) as [H1 H2]. split; [now left |].
    exact (onePerPair_pairs _ _ H2 Hinv).
  - destruct (resume_examAccess aid token w Hinv) as [H1 H2]. split; [now left | exact H2].
Qed.

(** X17.  Two handlers in flight, each an exam access or a handler that inserts no
    exam session, resumed in any order and for any number of turns: if the
    session rows were unique per (assignment, student) before, they are
    after; no schedule makes two exam accesses of one student insert two
    rows for one exam.  The lookup of the row and its insert are in one
    synchronous stretch of the handler. *)
Theorem exam_sessions_unique_under_interleaving (schedule : list bool)
        (t1 t2 : Task Response) (w : World) :
  careful t1 -> careful t2 -> onePerPair (db w) ->
  let w' := fst (interleave schedule t1 t2 w) in
  onePerPair (db w') /\ oneOpenPerPair (db w').
Proof.
  intros H1 H2 Hinv w'. subst w'.
  assert (H : onePerPair (db (fst (interleave schedule t1 t2 w)))).
  { revert t1 t2 w H1 H2 Hinv.
    induction schedule as [|b rest IH]; intros t1 t2 w H1 H2 Hinv; cbn [interleave].
    - exact Hinv.
    - destruct b.
      + destruct (resume_careful t2 w H2 Hinv) as [Hc Hd].
        destruct (resume t2 w) as [w' t2']. now apply IH.
      + destruct (resume_careful t1 w H1 Hinv) as [Hc Hd].
        destruct (resume t1 w) as [w' t1']. now apply IH. }
  split; [exact H | now apply uniquePairs_filter].
Qed.

End Interleaving.

(** **** Ending exam sessions *)

Section Termination.
Context {RT : Runtime} {CFG : Config}.

(** The block the termination paths share, by the answers of the runtime. *)
Lemma run_stopAndRemove {R : Type} (c : option string) (k : Task R) (w : World) :
  run (stopAndRemove c k) w =
  run k {| db := db w; sessions := sessions w; files := files w; dirs := dirs w;
           clock := clock w; runtime := snd (cleanup c (runtime w));
           trace := trace w ++ fst (cleanup c (runtime w)) |}.
Proof.
  destruct w as [d ss fs ds t rt tr]. unfold stopAndRemove, cleanup.
  cbn [db sessions files dirs clock runtime trace].
  destruct c as [c|]; [| cbn [fst snd]; now rewrite app_nil_r].
  destruct (String.eqb c ""); [cbn [fst snd]; now rewrite app_nil_r |].
  wstep. destruct (rtExec (Stop c) rt) as [rt1 [[] | code]]; wstep.
  - destruct (rtExec (Remove c) rt1) as [rt2 a]. wstep. now rewrite <- app_assoc.
  - reflexivity.
Qed.

Lemma run_markEnded {R : Type} (s : ExamSession) (k : Task R) (w : World) :
  run (markEnded s k) w =
  run k {| db := endExamSession (db w) (clock w) (es_id s);
           sessions := delete (examContainerName (es_assignment_id s) (es_student_id s))
                         (sessions w);
           files := files w; dirs := dirs w; clock := clock w; runtime := runtime w;
           trace := trace w ++
                    [ EndExamSession (es_id s);
                      SessionsDelete
                        (examContainerName (es_assignment_id s) (es_student_id s)) ] |}.
Proof.
  destruct w as [d ss fs ds t rt tr]. unfold markEnded. wstep. now rewrite <- app_assoc.
Qed.



(** X19.  When the runtime rejects the stop of the container of an exam session,
    ending the session does not attempt the remove: the stop is the only
    call on the runtime, and the session is completed all the same, its
    container left as it was. *)
Theorem endExam_stop_rejected (id : Z) (s : ExamSession) (c : string) (rt1 : RtState)
        (code : Z) (w : World) :
  getExamSession (db w) id = Some s ->
  containerOf s = Some c ->
  rtExec (Stop c) (runtime w) = (rt1, Rejected code) ->
  let w' := fst (run (endExam id) w) in
  snd (run (endExam id) w) = SendJson 200 JSuccess /\
  dockerCalls (events w w') = [Docker (Stop c)] /\
  runtime w' = rt1 /\
  db w' = endExamSession (db w) (clock w) id.
Proof.
  intros Hs Hc Hstop w'. subst w'.
  assert (Hid : es_id s = id).
  { apply find_some in Hs as [_ H]. now apply Z.eqb_eq in H. }
  assert (Hcl : cleanup (es_container_id s) (runtime w) = ([Docker (Stop c)], rt1)).
  { unfold containerOf in Hc. unfold cleanup. destruct (es_container_id s) as [c'|]; [| discriminate].
    destruct (String.eqb c' ""); [discriminate |]. injection Hc as ->. now rewrite Hstop. }
  destruct w as [d ss fs ds t rt tr]. cbn [db runtime] in *.
  unfold endExam. wstep. rewrite Hs. rewrite run_stopAndRemove, run_markEnded.
  cbn [run fst snd db sessions files dirs clock runtime trace]. rewrite Hcl, Hid.
  cbn [fst snd]. split; [reflexivity |]. split; [| now split].
  erewrite events_app; [| cbn [trace]; rewrite <- !app_assoc; reflexivity]. reflexivity.
Qed.

Lemma endAll_cons (d : Db) (now id : Z) (ids : list Z) :
  endAll d now (id :: ids) = endAll (endExamSession d now id) now ids.
Proof. reflexivity. Qed.

(** The loop of the sweeps over any list of rows. *)
Lemma run_expire (now : Z) (l : list ActiveExamSession) (n : nat) (w : World) :
  exists rt' evs,
    run (expire now l n) w =
    ({| db := endAll (db w) (clock w) (map (fun x => es_id (row x)) (expired now l));
        sessions := forgetAll (sessions w) (map row (expired now l));
        files := files w; dirs := dirs w; clock := clock w; runtime := rt';
        trace := trace w ++ evs |},
     (n + length (expired now l))%nat) /\
    (expired now l = [] -> rt' = runtime w /\ evs = []).
Proof.
  revert n w. induction l as [|x l IH]; intros n w.
  - exists (runtime w), []. cbn [expire run expired List.filter map length endAll forgetAll fold_left].
    rewrite app_nil_r, Nat.add_0_r. destruct w; now split.
  - cbn [expire]. unfold expired. cbn [List.filter]. fold (expired now l).
    destruct (dateBefore (end_time x) now) eqn:Hb.
    + rewrite run_stopAndRemove, run_markEnded.
      edestruct IH as (rt' & evs & Hrun & _). rewrite Hrun. clear Hrun.
      cbn [db sessions files dirs clock runtime trace map length].
      eexists rt', _. split; [| discriminate].
      rewrite endAll_cons. unfold forgetAll at 2. cbn [fold_left]. fold (forgetAll
        (delete (examContainerName (es_assignment_id (row x)) (es_student_id (row x)))
           (sessions w)) (map row (expired now l))).
      f_equal; [| lia]. f_equal. rewrite <- !app_assoc. reflexivity.
    + apply IH.
Qed.

(** X20.  [check-expired] ends exactly the active sessions whose exam has an end
    time with a time value strictly before the clock, whatever the runtime
    answers for their containers: their rows are completed, one after the
    other, their keys leave the registry, and the answer counts them,
    beside the number of active sessions looked at. *)
Theorem checkExpired_ends_expired (w : World) :
  let w' := fst (run checkExpired w) in
  let active := getActiveExamSessions (db w) in
  snd (run checkExpired w)
    = SendJson 200 (JTerminated (length (expired (clock w) active)) (length active)) /\
  db w' = endAll (db w) (clock w) (expiredIds (clock w) (db w)) /\
  sessions w' = forgetAll (sessions w) (map row (expired (clock w) active)).
Proof.
  intros w' active. subst w' active.
  destruct w as [d ss fs ds t rt tr]. unfold checkExpired. wstep. rewrite run_bind.
  edestruct run_expire as (rt' & evs & Hrun & _). rewrite Hrun. clear Hrun.
  cbn [run fst snd db sessions clock Nat.add]. now repeat split.
Qed.

Lemma run_sweep (w : World) :
  exists rt' evs,
    fst (run sweep w) =
    {| db := endAll (db w) (clock w) (expiredIds (clock w) (db w));
       sessions := forgetAll (sessions w)
                     (map row (expired (clock w) (getActiveExamSessions (db w))));
       files := files w; dirs := dirs w; clock := clock w; runtime := rt';
       trace := trace w ++ GetActiveExamSessions :: Now :: evs |} /\
    (expired (clock w) (getActiveExamSessions (db w)) = [] -> rt' = runtime w /\ evs = []).
Proof.
  destruct w as [d ss fs ds t rt tr]. unfold sweep. wstep. rewrite run_bind.
  edestruct run_expire as (rt' & evs & Hrun & Hnil). rewrite Hrun. clear Hrun.
  cbn [run fst snd db sessions files dirs clock runtime trace] in *.
  exists rt', evs. split; [| exact Hnil]. unfold expiredIds. f_equal.
  rewrite <- !app_assoc. reflexivity.
Qed.

Lemma active_endExamSession (d : Db) (now id : Z) :
  getActiveExamSessions (endExamSession d now id)
  = List.filter (fun x => negb (es_id (row x) =? id)) (getActiveExamSessions d).
Proof.
  unfold getActiveExamSessions, endExamSession, setExamSessions.
  cbn [exam_sessions assignments].
  induction (exam_sessions d) as [|s l IH]; [reflexivity |].
  cbn [map omap list_omap]. fold (@omap list _ ExamSession ActiveExamSession). rewrite IH. clear IH.
  destruct (es_id s =? id) eqn:He.
  - cbn [es_status Status_eqb].
    destruct (Status_eqb (es_status s) active); [| reflexivity].
    destruct (List.find _ (assignments d)) as [a|]; [| reflexivity].
    cbn [List.filter row]. now rewrite He.
  - destruct (Status_eqb (es_status s) active); [| reflexivity].
    destruct (List.find _ (assignments d)) as [a|]; [| reflexivity].
    cbn [List.filter row]. now rewrite He.
Qed.

Lemma filter_filter {A : Type} (f g : A -> bool) (l : list A) :
  List.filter f (List.filter g l) = List.filter (fun x => g x && f x) l.
Proof.
  induction l as [|a l IH]; [reflexivity |]. cbn [List.filter].
  destruct (g a); cbn [List.filter andb]; [destruct (f a) |]; now rewrite IH.
Qed.

Lemma active_endAll (d : Db) (now : Z) (ids : list Z) :
  getActiveExamSessions (endAll d now ids)
  = List.filter (fun x => negb (existsb (Z.eqb (es_id (row x))) ids)) (getActiveExamSessions d).
Proof.
  revert d. induction ids as [|id ids IH]; intros d.
  - cbn [endAll fold_left existsb negb]. now rewrite filter_all.
  - rewrite endAll_cons, IH, active_endExamSession, filter_filter.
    apply filter_ext. intros x. cbn [existsb]. now rewrite negb_orb.
Qed.

Lemma filter_nothing {A : Type} (f : A -> bool) (l : list A) :
  (forall x, In x l -> f x = false) -> List.filter f l = [].
Proof.
  induction l as [|a l IH]; intros H; [reflexivity |]. cbn [List.filter].
  rewrite (H a (or_introl eq_refl)). apply IH. intros x Hx. apply H. now right.
Qed.

(** After a sweep, no active session is expired at the time of the sweep. *)
Lemma expired_after_sweep (d : Db) (now : Z) :
  expired now (getActiveExamSessions (endAll d now (expiredIds now d))) = [].
Proof.
  rewrite active_endAll. unfold expired at 1. rewrite filter_filter.
  apply filter_nothing. intros x Hx.
  destruct (dateBefore (end_time x) now) eqn:Hb; [| apply andb_false_r].
  rewrite andb_true_r. apply negb_false_iff. apply existsb_exists.
  exists (es_id (row x)). split; [| apply Z.eqb_refl].
  unfold expiredIds. apply in_map_iff. exists x. split; [reflexivity |].
  apply filter_In. now split.
Qed.

(** X21.  A sweep that follows a sweep with the clock where it was finds nothing
    to end: it asks nothing of the runtime and leaves the database and the
    registry as the first sweep left them. *)
Theorem sweep_again_does_nothing (w : World) :
  let w1 := fst (run sweep w) in
  let w2 := fst (run sweep w1) in
  db w2 = db w1 /\ sessions w2 = sessions w1 /\ runtime w2 = runtime w1 /\
  events w1 w2 = [GetActiveExamSessions; Now].
Proof.
  intros w1 w2. subst w1 w2.
  destruct (run_sweep w) as (rt1 & evs1 & H1 & _). rewrite H1. clear H1.
  edestruct run_sweep as (rt2 & evs2 & H2 & Hnil). rewrite H2. clear H2.
  cbn [db sessions files dirs clock runtime trace] in *.
  assert (Hexp : expired (clock w)
                   (getActiveExamSessions
                      (endAll (db w) (clock w) (expiredIds (clock w) (db w)))) = [])
    by apply expired_after_sweep.
  assert (Hids : expiredIds (clock w)
                   (endAll (db w) (clock w) (expiredIds (clock w) (db w))) = []).
  { unfold expiredIds at 1. now rewrite Hexp. }
  destruct (Hnil Hexp) as [-> ->]. rewrite Hids, Hexp.
  cbn [map endAll forgetAll fold_left]. repeat split.
  apply events_app. reflexivity.
Qed.

Lemma active_In (d : Db) (x : ActiveExamSession) :
  In x (getActiveExamSessions d) ->
  In (row x) (exam_sessions d) /\
  exists a, In a (assignments d) /\ a_id a = es_assignment_id (row x) /\
            end_time x = a_end_time a.
Proof.
  unfold getActiveExamSessions. induction (exam_sessions d) as [|s l IH]; [intros [] |].
  cbn [omap list_omap]. fold (@omap list _ ExamSession ActiveExamSession).
  destruct (Status_eqb (es_status s) active).
  - destruct (List.find _ (assignments d)) as [a|] eqn:Hf.
    + intros [<- | Hin].
      * cbn [row end_time]. split; [now left |]. apply find_some in Hf as [Ha He].
        apply Z.eqb_eq in He. now exists a.
      * destruct (IH Hin) as [H1 H2]. split; [now right | exact H2].
    + intros Hin. destruct (IH Hin) as [H1 H2]. split; [now right | exact H2].
  - intros Hin. destruct (IH Hin) as [H1 H2]. split; [now right | exact H2].
Qed.

Lemma NoDup_map_inj {A B : Type} (f : A -> B) (l : list A) (a b : A) :
  NoDup (map f l) -> In a l -> In b l -> f a = f b -> a = b.
Proof.
  induction l as [|x l IH]; cbn [map]; [intros _ [] |].
  intros Hd Ha Hb Hf. apply NoDup_cons in Hd as [Hn Hd].
  destruct Ha as [-> | Ha], Hb as [-> | Hb].
  - reflexivity.
  - exfalso. apply Hn. apply list_elem_of_In. rewrite Hf. now apply in_map.
  - exfalso. apply Hn. apply list_elem_of_In. rewrite <- Hf. now apply in_map.
  - now apply IH.
Qed.

Lemma endExamSession_frame (d : Db) (now id : Z) :
  assignments (endExamSession d now id) = assignments d /\
  map es_id (exam_sessions (endExamSession d now id)) = map es_id (exam_sessions d) /\
  forall s, In s (exam_sessions d) -> es_id s <> id ->
            In s (exam_sessions (endExamSession d now id)).
Proof.
  unfold endExamSession, setExamSessions. cbn [assignments exam_sessions].
  split; [reflexivity |]. split.
  - rewrite map_map. apply map_ext. intros s. now destruct (es_id s =? id).
  - intros s Hin Hne. apply in_map_iff. exists s. split; [| exact Hin].
    destruct (es_id s =? id) eqn:He; [apply Z.eqb_eq in He; contradiction | reflexivity].
Qed.

Lemma endAll_frame (d : Db) (now : Z) (ids : list Z) :
  assignments (endAll d now ids) = assignments d /\
  map es_id (exam_sessions (endAll d now ids)) = map es_id (exam_sessions d) /\
  forall s, In s (exam_sessions d) -> ~ In (es_id s) ids ->
            In s (exam_sessions (endAll d now ids)).
Proof.
  revert d. induction ids as [|id ids IH]; intros d.
  - cbn [endAll fold_left]. now repeat split.
  - rewrite endAll_cons. destruct (IH (endExamSession d now id)) as (H1 & H2 & H3).
    destruct (endExamSession_frame d now id) as (F1 & F2 & F3).
    split; [now rewrite H1 |]. split; [now rewrite H2 |].
    intros s Hin Hn. apply H3.
    + apply F3; [exact Hin |]. intros He. apply Hn. now left.
    + intros Hi. apply Hn. now right.
Qed.

Lemma dateBefore_value (t : option DateText) (now : Z) :
  dateValue t = None -> dateBefore t now = false.
Proof. unfold dateValue, dateBefore. destruct t as [t|]; [intros -> |]; reflexivity. Qed.

(** A row whose exam has no usable end time is not among the rows a sweep
    ends. *)
Lemma unbounded_not_expired (d : Db) (now : Z) (s : ExamSession) :
  primaryKey d ->
  In s (exam_sessions d) ->
  (forall a, In a (assignments d) -> a_id a = es_assignment_id s ->
             dateValue (a_end_time a) = None) ->
  ~ In (es_id s) (expiredIds now d).
Proof.
  intros Hk Hin Hnull Hid. unfold expiredIds in Hid.
  apply in_map_iff in Hid as (x & Hx & Hexp). apply filter_In in Hexp as [Hact Hb].
  apply active_In in Hact as (Hrow & a & Ha & Hida & Hend).
  assert (row x = s) as Heq by exact (NoDup_map_inj es_id _ _ _ Hk Hrow Hin Hx).
  rewrite Hend, (dateBefore_value _ now (Hnull a Ha ltac:(now rewrite Hida, Heq))) in Hb.
  discriminate.
Qed.

(** X22.  An exam without end time is never swept.  A session row of an exam whose
    end time is NULL, or is a text that is no date, stays as it is through
    any number of ticks of the sweeper, at whatever times they come: the
    sweeper neither completes it nor touches its fields. *)
Theorem unbounded_exam_never_swept (clocks : list Z) (s : ExamSession) (w : World) :
  primaryKey (db w) ->
  In s (exam_sessions (db w)) ->
  (forall a, In a (assignments (db w)) -> a_id a = es_assignment_id s ->
             dateValue (a_end_time a) = None) ->
  In s (exam_sessions (db (sweeps clocks w))).
Proof.
  unfold sweeps. revert w. induction clocks as [|t clocks IH]; intros w Hk Hin Hnull.
  - exact Hin.
  - cbn [fold_left].
    destruct (run_sweep (setClock w t)) as (rt' & evs & Hrun & _).
    destruct (endAll_frame (db w) t (expiredIds t (db w))) as (F1 & F2 & F3).
    apply IH; rewrite Hrun; cbn [db setClock clock].
    + unfold primaryKey. rewrite F2. exact Hk.
    + apply F3; [exact Hin |]. now apply unbounded_not_expired.
    + rewrite F1. exact Hnull.
Qed.

End Termination.

(** **** The legacy session API and the enrollment container API *)

Section Containers.
Context {RT : Runtime} {CFG : Config}.

(** X23.  Deleting a legacy session attempts the stop and then the remove of its
    container, the remove also when the stop was rejected, and whatever the
    runtime answers the key leaves the registry and the answer is success;
    the database is not touched. *)
Theorem deleteSession_forgets (id : string) (session : Session) (w : World) :
  sessions w !! id = Some session ->
  let w' := fst (run (deleteSession id) w) in
  snd (run (deleteSession id) w) = SendJson 200 JSuccess /\
  dockerCalls (events w w')
    = [Docker (Stop (containerId session)); Docker (Remove (containerId session))] /\
  sessions w' = delete id (sessions w) /\
  db w' = db w.
Proof.
  intros Hs w'. subst w'. destruct w as [d ss fs ds t rt tr]. cbn [sessions] in Hs.
  unfold deleteSession. wstep. rewrite Hs. wstep.
  destruct (rtExec (Stop _) rt) as [rt1 a1]. wstep.
  destruct (rtExec (Remove _) rt1) as [rt2 a2]. wstep.
  split; [reflexivity |]. split; [| now split].
  erewrite events_app; [| cbn [trace]; rewrite <- !app_assoc; reflexivity]. reflexivity.
Qed.

(** X24.  Stopping the container of an enrollment answers success whatever the
    runtime does.  When the runtime stops the container the enrollment is
    marked stopped, keeping its container, and the key leaves the registry;
    when the runtime rejects the stop the answer is the same success, and
    neither the enrollment nor the registry changes.  The stop is the only
    call on the runtime: the container is never removed. *)
Theorem enrollmentStop_reports_stopped (id : Z) (e : Enrollment) (w : World) :
  getEnrollment (db w) id = Some e ->
  let w' := fst (run (enrollmentStop id) w) in
  let name := getContainerName e in
  snd (run (enrollmentStop id) w) = SendJson 200 (JSuccessStatus "stopped") /\
  dockerCalls (events w w') = [Docker (Stop name)] /\
  match snd (rtExec (Stop name) (runtime w)) with
  | Ok _ => db w' = updateEnrollmentContainer (db w) (e_id e) (e_container_id e) "stopped" /\
            sessions w' = delete name (sessions w)
  | Rejected _ => db w' = db w /\ sessions w' = sessions w
  end.
Proof.
  intros He w' name. subst w' name. destruct w as [d ss fs ds t rt tr]. cbn [db runtime] in *.
  unfold enrollmentStop. wstep. rewrite He. wstep.
  destruct (rtExec (Stop _) rt) as [rt1 [[] | code]]; wstep.
  - split; [reflexivity |]. split; [| now split].
    erewrite events_app; [| cbn [trace]; rewrite <- !app_assoc; reflexivity]. reflexivity.
  - split; [reflexivity |]. split; [| now split].
    erewrite events_app; [| cbn [trace]; rewrite <- !app_assoc; reflexivity]. reflexivity.
Qed.

(** X25.  Starting the container of an enrollment never creates one: when the
    runtime knows no container of the enrollment's name the answer is the
    400 that sends the student to the access link, the inspection is the
    only call on the runtime, and nothing changes. *)
Theorem enrollmentStart_requires_container (id : Z) (e : Enrollment) (rt1 : RtState)
        (code : Z) (w : World) :
  getEnrollment (db w) id = Some e ->
  rtExec (Inspect (getContainerName e)) (runtime w) = (rt1, Rejected code) ->
  let w' := fst (run (enrollmentStart id) w) in
  snd (run (enrollmentStart id) w)
    = SendJson 400
        (JError "Container not created yet. Student must access via their link first.") /\
  dockerCalls (events w w') = [Docker (Inspect (getContainerName e))] /\
  db w' = db w /\ sessions w' = sessions w /\ files w' = files w /\ dirs w' = dirs w.
Proof.
  intros He Hi w'. subst w'. destruct w as [d ss fs ds t rt tr]. cbn [db runtime] in *.
  unfold enrollmentStart. wstep. rewrite He. wstep. rewrite Hi. wstep.
  split; [reflexivity |]. split; [| now repeat split].
  erewrite events_app; [| cbn [trace]; rewrite <- !app_assoc; reflexivity]. reflexivity.
Qed.

(** Starting the container of an enrollment that has one starts it by its
    name, after the inspection and the synchronisation of the workspace;
    once the runtime has started it, the enrollment is marked running and
    holds the container name as its container, and the session is
    registered under that name. *)
Theorem enrollmentStart_starts_by_name (id : Z) (e : Enrollment) (rt1 rt2 : RtState)
        (running : bool) (w : World) :
  getEnrollment (db w) id = Some e ->
  rtExec (Inspect (getContainerName e)) (runtime w) = (rt1, Ok running) ->
  rtExec (Start (getContainerName e)) rt1 = (rt2, Ok tt) ->
  let w' := fst (run (enrollmentStart id) w) in
  let name := getContainerName e in
  snd (run (enrollmentStart id) w) = SendJson 200 (JSuccessStatus "running") /\
  dockerCalls (events w w') = [Docker (Inspect name); Docker (Start name)] /\
  db w' = updateEnrollmentContainer (db w) (e_id e) (Some name) "running" /\
  sessions w' = <[name := {| containerId := name; enrollmentId := Some (e_id e);
                             examSessionId := None; imageId := None; imageName := None;
                             isExam := false; created := clock w |}]> (sessions w).
Proof.
  intros He Hi Hs w' name. subst w' name.
  destruct w as [d ss fs ds t rt tr]. cbn [db runtime] in *.
  unfold enrollmentStart. wstep. rewrite He. wstep. rewrite Hi. wstep. rewrite run_bind.
  edestruct run_sync as (fs' & ds' & evs & Hrun & Hev). rewrite Hrun. clear Hrun.
  cbn [db sessions files dirs clock runtime trace]. wstep. rewrite Hs. wstep.
  split; [reflexivity |]. split; [| now split].
  erewrite events_app; [| cbn [trace]; rewrite <- !app_assoc; reflexivity].
  change (?a :: ?b :: ?c :: evs ++ ?l) with ([a; b; c] ++ evs ++ l).
  rewrite !dockerCalls_app, (dockerCalls_none evs Hev). reflexivity.
Qed.

(** X26.  Deleting an enrollment deletes its row whatever the runtime answers for
    its container, with the attempts of the shared block before the delete,
    and leaves the registry as it was: a session registered for the
    enrollment stays registered. *)
Theorem deleteEnrollment_keeps_registry (courseId id : Z) (e : Enrollment) (w : World) :
  getEnrollment (db w) id = Some e ->
  let w' := fst (run (deleteEnrollmentHandler courseId id) w) in
  snd (run (deleteEnrollmentHandler courseId id) w) = SendJson 200 JSuccess /\
  db w' = deleteEnrollment (db w) id /\
  sessions w' = sessions w /\
  events w w' = GetEnrollment id :: fst (cleanup (e_container_id e) (runtime w))
                ++ [DeleteEnrollment id].
Proof.
  intros He w'. subst w'. destruct w as [d ss fs ds t rt tr]. cbn [db runtime] in *.
  unfold deleteEnrollmentHandler. wstep. rewrite He. rewrite run_stopAndRemove.
  cbn [db sessions files dirs clock runtime trace]. wstep.
  split; [reflexivity |]. split; [reflexivity |]. split; [reflexivity |].
  apply events_app. cbn [trace]. rewrite <- !app_assoc. reflexivity.
Qed.

End Containers.

(** **** Routing to the desktop of a session *)

Section Routing.
Context {RT : Runtime} {CFG : Config}.

Lemma noSlash_app (a b : string) : noSlash (a +:+ b) = noSlash a && noSlash b.
Proof.
  induction a as [|c a IH]; [reflexivity |].
  change (String c a +:+ b) with (String c (a +:+ b)). cbn [noSlash].
  now rewrite IH, andb_assoc.
Qed.

Lemma noSlash_pretty_N_go (x : N) (s : string) :
  noSlash s = true -> noSlash (pretty_N_go x s) = true.
Proof.
  revert s. induction (N.lt_wf_0 x) as [x _ IH]. intros s Hs.
  destruct (N.eq_dec x 0) as [-> | Hx]; [exact Hs |].
  rewrite pretty_N_go_step by lia. apply IH.
  - apply N.div_lt; lia.
  - cbn [noSlash]. rewrite Hs, andb_true_r.
    unfold pretty_N_char. repeat case_match; reflexivity.
Qed.

Lemma noSlash_pretty_N (x : N) : noSlash (pretty x) = true.
Proof.
  unfold pretty, pretty_N. destruct (decide (x = 0%N)); [reflexivity |].
  now apply noSlash_pretty_N_go.
Qed.

Lemma noSlash_pretty (z : Z) : noSlash (pretty z) = true.
Proof.
  destruct z as [|p|p]; [reflexivity | apply noSlash_pretty_N |].
  change (pretty (Z.neg p)) with ("-" +:+ pretty (N.pos p)).
  rewrite noSlash_app, noSlash_pretty_N. reflexivity.
Qed.

Lemma noSlash_getContainerName (e : Enrollment) : noSlash (getContainerName e) = true.
Proof.
  unfold getContainerName. rewrite !noSlash_app, !noSlash_pretty. reflexivity.
Qed.


Lemma splitSlash_key (key tail : string) :
  noSlash key = true -> splitSlash (key +:+ "/" +:+ tail) = (key, "/" +:+ tail).
Proof.
  induction key as [|c key IH]; intros Hk.
  - reflexivity.
  - cbn [noSlash] in Hk. apply andb_true_iff in Hk as [Hc Hk].
    change (String c key +:+ "/" +:+ tail) with (String c (key +:+ "/" +:+ tail)).
    cbn [splitSlash]. apply negb_true_iff in Hc. rewrite Hc.
    now rewrite (IH Hk).
Qed.

Lemma prefix_append (p rest : string) : String.prefix p (p +:+ rest) = true.
Proof.
  induction p as [|c p IH]; [now destruct rest |].
  change (String c p +:+ rest) with (String c (p +:+ rest)). cbn [String.prefix].
  destruct (ascii_dec c c); [exact IH | contradiction].
Qed.

Lemma matchWebsockify_key (key rest : string) :
  noSlash key = true -> key <> "" ->
  matchWebsockify ("/vnc/" +:+ key +:+ "/websockify" +:+ rest) = Some key.
Proof.
  intros Hk Hne. unfold matchWebsockify.
  change (stripPrefix "/vnc/" ("/vnc/" +:+ key +:+ "/websockify" +:+ rest))
    with (Some (key +:+ "/" +:+ ("websockify" +:+ rest))).
  cbv beta iota. rewrite (splitSlash_key key _ Hk).
  destruct key as [|c key]; [contradiction |].
  assert (Hp : startsWith ("/" +:+ "websockify" +:+ rest) "/websockify" = true)
    by apply (prefix_append "/websockify" rest).
  now rewrite Hp.
Qed.

Lemma proxy_getContainerName (e : Enrollment) :
  proxyContainerName (getContainerName e) = getContainerName e.
Proof.
  unfold proxyContainerName, startsWith, getContainerName.
  now rewrite (prefix_append "lms-").
Qed.


Lemma matchWebsockify_exact (key : string) :
  noSlash key = true -> key <> "" ->
  matchWebsockify ("/vnc/" +:+ key +:+ "/websockify") = Some key.
Proof. exact (matchWebsockify_key key ""). Qed.

(** X27.  The upgrade of a WebSocket on a path [/vnc/<key>/websockify...] is
    decided by the key alone: a key that is not in the registry has its
    socket destroyed; a key that is connects to port 6080 of the host that
    is the key itself when the key starts with [lms-], and the key after
    [exam-] otherwise. *)
Theorem upgrade_routes_by_key (registry : gmap string Session) (key rest : string) :
  noSlash key = true -> key <> "" ->
  onUpgrade registry ("/vnc/" +:+ key +:+ "/websockify" +:+ rest) =
  match registry !! key with
  | None => Destroy
  | Some _ =>
      Connect ("ws://" +:+ (if startsWith key "lms-" then key else "exam-" +:+ key)
                 +:+ ":6080/websockify")
  end.
Proof.
  intros Hk Hne. unfold onUpgrade. rewrite (matchWebsockify_key key rest Hk Hne).
  reflexivity.
Qed.

(** X28.  The session key a regular access hands to the browser leads to the
    container the access resolved: whenever an access redirects, the upgrade
    of the WebSocket for the key of the redirect connects to the host that
    bears the container name of the enrollment. *)
Theorem access_key_reaches_container (token key : string) (e : Enrollment) (w : World) :
  getEnrollmentByToken (db w) token = Some e ->
  sessionKey (snd (run (access token) w)) = Some key ->
  let w' := fst (run (access token) w) in
  key = getContainerName e /\
  onUpgrade (sessions w') ("/vnc/" +:+ key +:+ "/websockify")
    = Connect ("ws://" +:+ getContainerName e +:+ ":6080/websockify").
Proof.
  intros He Hkey w'. subst w'.
  destruct (access_cases w token) as [(Hn & _) | [(e' & _ & Hr & _) | (e' & c & He' & Hr & Hss)]].
  - rewrite He in Hn. discriminate.
  - rewrite Hr in Hkey. discriminate.
  - rewrite He in He'. injection He' as <-. rewrite Hr in Hkey. injection Hkey as <-.
    split; [reflexivity |]. rewrite Hss. unfold onUpgrade.
    rewrite matchWebsockify_exact by (apply noSlash_getContainerName || discriminate).
    rewrite lookup_insert_eq, proxy_getContainerName. reflexivity.
Qed.


(** X30.  A legacy session reaches the container it created: for a session name
    without [/] that does not start with [lms-], when the runtime creates
    and starts the container, the container bears the name [exam-] followed
    by the session name, the session is registered under the session name,
    and the upgrade of the WebSocket for that name connects to the host of
    that container. *)
Theorem legacy_session_reaches_container (n container : string) (rt1 rt2 : RtState)
        (w : World) :
  n <> "" -> noSlash n = true -> startsWith n "lms-" = false ->
  let opts := {| Image := "exam-desktop-vscode-python"; name := "exam-" +:+ n;
                 Env := ["SESSION_NAME=" +:+ n]; NetworkMode := DOCKER_NETWORK;
                 CapAdd := ["NET_ADMIN"]; Dns := ["127.0.0.1"]; Binds := [] |} in
  rtExec (CreateContainer opts) (runtime w) = (rt1, Ok container) ->
  rtExec (Start container) rt1 = (rt2, Ok tt) ->
  let w' := fst (run (createSession (Some "vscode-python") (Some n)) w) in
  snd (run (createSession (Some "vscode-python") (Some n)) w)
    = SendJson 200 (JSession n ("/vnc/" +:+ n +:+ "/vnc.html")) /\
  dockerCalls (events w w') = [Docker (CreateContainer opts); Docker (Start container)] /\
  sessions w' !! n = Some {| containerId := container; enrollmentId := None;
                             examSessionId := None; imageId := Some "vscode-python";
                             imageName := Some "VS Code + Python";
                             isExam := false; created := clock w |} /\
  onUpgrade (sessions w') ("/vnc/" +:+ n +:+ "/websockify")
    = Connect ("ws://" +:+ name opts +:+ ":6080/websockify").
Proof.
  intros Hne Hk Hl opts Hc Hs w'. subst opts w'.
  destruct w as [d ss fs ds t rt tr]. cbn [runtime] in *.
  unfold createSession, images. cbn [List.find image_id String.eqb Ascii.eqb Bool.eqb].
  cbn [image image_id image_name].
  destruct (String.eqb n "") eqn:Hn; [apply String.eqb_eq in Hn; contradiction |].
  wstep. rewrite Hc. wstep. rewrite Hs. wstep.
  split; [reflexivity |]. split.
  { erewrite events_app; [| cbn [trace]; rewrite <- !app_assoc; reflexivity]. reflexivity. }
  split; [apply lookup_insert_eq |].
  unfold onUpgrade.
  rewrite (matchWebsockify_exact n Hk Hne), lookup_insert_eq.
  unfold proxyContainerName. rewrite Hl. reflexivity.
Qed.

End Routing.

(** **** The theorems at work on the scenarios *)

Lemma exam_window_witness :
  snd (run (@examAccess Scenario.defaults 9 "tok-A") (Scenario.world [] 999))
    = @notStarted Scenario.defaults (Some 1000) /\
  snd (run (@examAccess Scenario.defaults 9 "tok-A") (Scenario.world [] 2001)) = ended.
Proof.
  split.
  - apply (proj1 (@exam_window Engine.engine Scenario.defaults 9 "tok-A" Scenario.enrollmentA
                    Scenario.exam9 (Scenario.world [] 999) eq_refl eq_refl eq_refl)).
    exists 1000. split; [reflexivity | cbn; lia].
  - apply (proj2 (@exam_window Engine.engine Scenario.defaults 9 "tok-A" Scenario.enrollmentA
                    Scenario.exam9 (Scenario.world [] 2001) eq_refl eq_refl eq_refl)).
    split.
    + intros t1 [= <-]. cbn. lia.
    + exists 2000. split; [reflexivity | cbn; lia].
Defined.

Lemma exam_completed_refused_witness :
  let w := Scenario.world [Scenario.session 1 9 7 (Some "container-1") completed] 1500 in
  snd (run (@examAccess Scenario.defaults 9 "tok-A") w) = alreadySubmitted /\
  db (fst (run (@examAccess Scenario.defaults 9 "tok-A") w)) = db w.
Proof.
  intros w.
  destruct (@exam_completed_refused Engine.engine Scenario.defaults 9 "tok-A"
              Scenario.enrollmentA Scenario.exam9
              (Scenario.session 1 9 7 (Some "container-1") completed) w
              eq_refl eq_refl eq_refl eq_refl eq_refl eq_refl eq_refl) as (H1 & H2 & _).
  split; [exact H1 | exact H2].
Defined.



Lemma exam_sessions_unique_under_interleaving_witness :
  let w' := fst (interleave [false; true; true; false; false; true]
                   (@examAccess Scenario.defaults 9 "tok-A")
                   (@examAccess Scenario.defaults 9 "tok-A")
                   (Scenario.world [] 1500)) in
  onePerPair (db w') /\ oneOpenPerPair (db w').
Proof.
  apply (@exam_sessions_unique_under_interleaving Engine.engine Scenario.defaults).
  - right. exists 9, "tok-A". reflexivity.
  - right. exists 9, "tok-A". reflexivity.
  - apply NoDup_nil_2.
Defined.


Lemma endExam_stop_rejected_witness :
  let w := Scenario.world [Scenario.session 1 9 7 (Some "container-1") active] 1500 in
  dockerCalls (events w (fst (run (endExam 1) w))) = [Docker (Stop "container-1")] /\
  db (fst (run (endExam 1) w)) = endExamSession (db w) 1500 1.
Proof.
  intros w.
  destruct (@endExam_stop_rejected Engine.engine 1
              (Scenario.session 1 9 7 (Some "container-1") active) "container-1"
              (runtime w) 404 w eq_refl eq_refl eq_refl)
    as (_ & H2 & _ & H4).
  split; [exact H2 | exact H4].
Defined.

Lemma unbounded_exam_never_swept_witness :
  In (Scenario.session 1 10 7 None active)
     (exam_sessions
        (db (sweeps [1500; 100000; 99999999]
               (Scenario.world [Scenario.session 1 10 7 None active] 0)))).
Proof.
  apply (@unbounded_exam_never_swept Engine.engine).
  - apply NoDup_singleton.
  - left. reflexivity.
  - intros a [<- | [<- | []]]; [discriminate | reflexivity].
Defined.

Lemma deleteSession_forgets_witness :
  let legacy := {| containerId := "container-1"; enrollmentId := None; examSessionId := None;
                   imageId := Some "vscode-python"; imageName := Some "VS Code + Python";
                   isExam := false; created := 1 |} in
  let w := @Build_World Engine.engine (Scenario.database []) {[ "demo" := legacy ]} ∅ ∅ 5
             Engine.empty [] in
  snd (run (deleteSession "demo") w) = SendJson 200 JSuccess /\
  dockerCalls (events w (fst (run (deleteSession "demo") w)))
    = [Docker (Stop "container-1"); Docker (Remove "container-1")].
Proof.
  intros legacy w.
  destruct (@deleteSession_forgets Engine.engine "demo" legacy w eq_refl) as (H1 & H2 & _).
  split; [exact H1 | exact H2].
Defined.

Lemma enrollmentStop_reports_stopped_witness :
  let w := Scenario.world [] 5 in
  snd (run (enrollmentStop 1) w) = SendJson 200 (JSuccessStatus "stopped") /\
  dockerCalls (events w (fst (run (enrollmentStop 1) w))) = [Docker (Stop "lms-3-7")].
Proof.
  intros w.
  destruct (@enrollmentStop_reports_stopped Engine.engine 1 Scenario.enrollmentA w eq_refl)
    as (H1 & H2 & _).
  split; [exact H1 | exact H2].
Defined.

Lemma enrollmentStart_requires_container_witness :
  let w := Scenario.world [] 5 in
  snd (run (@enrollmentStart Scenario.defaults 1) w)
    = SendJson 400
        (JError "Container not created yet. Student must access via their link first.") /\
  db (fst (run (@enrollmentStart Scenario.defaults 1) w)) = db w.
Proof.
  intros w.
  destruct (@enrollmentStart_requires_container Engine.engine Scenario.defaults 1
              Scenario.enrollmentA (runtime w) 404 w eq_refl eq_refl)
    as (H1 & _ & H3 & _).
  split; [exact H1 | exact H3].
Defined.

Lemma enrollmentStart_starts_by_name_witness :
  let w := Scenario.worldWith [Scenario.desktop "lms-3-7" false] [] 5 in
  dockerCalls (events w (fst (run (@enrollmentStart Scenario.defaults 1) w)))
    = [Docker (Inspect "lms-3-7"); Docker (Start "lms-3-7")].
Proof.
  intros w.
  destruct (@enrollmentStart_starts_by_name Engine.engine Scenario.defaults 1
              Scenario.enrollmentA (runtime w)
              {| Engine.containers := [Scenario.desktop "lms-3-7" true];
                 Engine.created_count := 1 |} false w eq_refl eq_refl eq_refl)
    as (_ & H2 & _).
  exact H2.
Defined.

Lemma deleteEnrollment_keeps_registry_witness :
  let w := Scenario.world [] 5 in
  snd (run (deleteEnrollmentHandler 3 1) w) = SendJson 200 JSuccess /\
  enrollments (db (fst (run (deleteEnrollmentHandler 3 1) w))) = [Scenario.enrollmentB].
Proof.
  intros w.
  destruct (@deleteEnrollment_keeps_registry Engine.engine 3 1 Scenario.enrollmentA w eq_refl)
    as (H1 & H2 & _).
  split; [exact H1 |]. rewrite H2. reflexivity.
Defined.

Lemma upgrade_routes_by_key_witness :
  onUpgrade ∅ "/vnc/lms-3-7/websockify?token=1" = Destroy.
Proof.
  exact (upgrade_routes_by_key ∅ "lms-3-7" "?token=1" eq_refl ltac:(discriminate)).
Defined.

Lemma access_key_reaches_container_witness :
  let w := Scenario.worldWith [Scenario.desktop "lms-3-7" true] [] 1000 in
  onUpgrade (sessions (fst (run (@access Scenario.defaults "tok-A") w)))
    "/vnc/lms-3-7/websockify"
  = Connect "ws://lms-3-7:6080/websockify".
Proof.
  intros w.
  destruct (@access_key_reaches_container Engine.engine Scenario.defaults "tok-A" "lms-3-7"
              Scenario.enrollmentA w eq_refl eq_refl) as [_ H].
  exact H.
Defined.


Lemma legacy_session_reaches_container_witness :
  let w := Scenario.world [] 5 in
  onUpgrade (sessions (fst (run (@createSession Scenario.defaults (Some "vscode-python")
                                   (Some "demo")) w)))
    "/vnc/demo/websockify"
  = Connect "ws://exam-demo:6080/websockify".
Proof.
  intros w.
  destruct (@legacy_session_reaches_container Engine.engine Scenario.defaults "demo"
              "container-1"
              {| Engine.containers := [ {| Engine.id := "container-1";
                                           Engine.cname := "exam-demo";
                                           Engine.running := false |} ];
                 Engine.created_count := 1 |}
              {| Engine.containers := [ {| Engine.id := "container-1";
                                           Engine.cname := "exam-demo";
                                           Engine.running := true |} ];
                 Engine.created_count := 1 |}
              w ltac:(discriminate) eq_refl eq_refl eq_refl eq_refl) as (_ & _ & _ & H).
  exact H.
Defined.

End GatewayFacts.
